(** * Skill gap analyzer: a shallow embedding of
    [backend/app/services/skill_analyzer.py] (class [SkillGapAnalyzer]) and of
    the job table builder of [backend/app/services/data_preprocessor.py].

    Conventions of the model.
    - Python [str] is [string]; [str.lower] and the substring test [a in b]
      are modelled on ASCII text (code points above 127 are left unchanged
      by [lower]).
    - Python [float] scores are exact rationals [Q]: comparisons are the
      ones of the source ([>=]), rounding of float arithmetic and NaN are
      outside the model.
    - The sentence encoder ([SentenceTransformer.encode]), the cosine of two
      embeddings ([sklearn.metrics.pairwise.cosine_similarity]) and
      [fuzzywuzzy.fuzz.ratio] are external code: they are section variables.
    - A raised exception is the [Raise] outcome of the [result] monad. *)

From Stdlib Require Import Ascii String QArith Qminmax.
From stdpp Require Import gmap strings list fin_maps.

Local Open Scope string_scope.
Local Open Scope list_scope.

(** ** Exceptions and the error monad *)

Inductive exception : Type :=
  | ValueError
  | IndexError
  | KeyError (key : string)
  | OSError
  | JSONDecodeError.

Inductive result (A : Type) : Type :=
  | Ok (a : A)
  | Raise (e : exception).
Arguments Ok {A} a.
Arguments Raise {A} e.

#[export] Instance result_ret : MRet result := λ A a, Ok a.

(** [x ← r; k]: an exception raised by [r] propagates. *)
#[export] Instance result_bind : MBind result := λ A B k r,
  match r with
  | Ok a => k a
  | Raise e => Raise e
  end.

(** ** Strings: [str.lower] and the substring test *)

Module PyStr.

Definition lower_ascii (c : ascii) : ascii :=
  let n := nat_of_ascii c in
  if (65 <=? n)%nat && (n <=? 90)%nat then ascii_of_nat (n + 32) else c.

Fixpoint lower (s : string) : string :=
  match s with
  | EmptyString => EmptyString
  | String c s' => String (lower_ascii c) (lower s')
  end.

(** [sub in s] *)
Fixpoint contains (sub s : string) : bool :=
  String.prefix sub s ||
  match s with
  | EmptyString => false
  | String _ s' => contains sub s'
  end.

End PyStr.

(** ** Lists: [numpy.argmax] and indexing *)

Module Np.

(** Scan of [numpy.argmax]: the first index holding the largest value.
    [best] is the largest value seen so far, at index [besti]; [i] is the
    index of the head of [l]. *)
Fixpoint argmax_from (best : Q) (besti i : nat) (l : list Q) : nat :=
  match l with
  | [] => besti
  | x :: l' =>
      if Qle_bool x best then argmax_from best besti (S i) l'
      else argmax_from x i (S i) l'
  end.

(** [numpy.argmax] raises [ValueError] on an empty sequence. *)
Definition argmax (l : list Q) : result nat :=
  match l with
  | [] => Raise ValueError
  | x :: l' => Ok (argmax_from x 0 1 l')
  end.

End Np.

(** [l[i]]: [IndexError] out of range. *)
Definition py_index {A : Type} (l : list A) (i : nat) : result A :=
  match l !! i with
  | Some x => Ok x
  | None => Raise IndexError
  end.

(** ** Data model *)

(** A cell of the task column as pandas hands it to the loop of
    [create_job_skill_mapping]: a text, or the float NaN that [read_csv]
    puts for a blank cell. NaN equals nothing, itself included, so Python's
    [in] finds a NaN by object identity only; [object] is that identity. *)
Inductive TaskCell : Type :=
  | Text (text : string)
  | NaN (object : nat).

#[export] Instance TaskCell_eq_dec : EqDecision TaskCell.
Proof. solve_decision. Defined.

(** [bool(task)]: the empty text is false; NaN, a non-zero float, is
    true. *)
Definition truthy (task : TaskCell) : bool :=
  match task with
  | Text text => negb (String.eqb text "")
  | NaN _ => true
  end.

(** [a == b]: texts by value; NaN equals nothing. *)
Definition py_eq (a b : TaskCell) : bool :=
  match a, b with
  | Text s, Text t => String.eqb s t
  | _, _ => false
  end.

(** [a is b], where it is not already implied by [a == b]. *)
Definition same_object (a b : TaskCell) : bool :=
  match a, b with
  | NaN i, NaN j => Nat.eqb i j
  | _, _ => false
  end.

(** [task in tasks]: [task is e or task == e] for some element [e]. *)
Definition task_in (task : TaskCell) (tasks : list TaskCell) : bool :=
  existsb (λ e, same_object task e || py_eq task e) tasks.

(** An entry of a job's ["skills"] list, as [create_job_skill_mapping]
    writes it. *)
Record SkillInfo : Type := {
  skill : string;
  task : TaskCell;
  is_hot_tech : bool;
  is_in_demand : bool
}.

(** A value of [job_skill_mapping]: a JSON object whose keys are read with
    [dict.get(key, [])], so each may be absent. *)
Record JobEntry : Type := {
  skills : option (list SkillInfo);
  tasks : option (list TaskCell);
  hot_technologies : option (list string);
  in_demand_skills : option (list string)
}.

Inductive MatchType : Type := semantic | fuzzy.

(** An element of the list returned by [extract_and_match_skills]. *)
Record SkillMatch : Type := {
  original_skill : string;
  matched_skill : string;
  confidence : Q;
  match_type : MatchType
}.

(** An element of [learning_path]. *)
Record LearningPathItem : Type := {
  lp_skill : string;
  lp_category : string;
  estimated_weeks : Z;
  prerequisites : list string
}.

(** An element of [priority_order]. *)
Record PriorityItem : Type := {
  pr_skill : string;
  priority : string;
  reason : string
}.

Record Recommendations : Type := {
  priority_order : list PriorityItem;
  learning_path : list LearningPathItem;
  estimated_time : list (string * Z)
}.

(** The dictionary returned by [analyze_skill_gap]. *)
Record Analysis : Type := {
  target_job : string;
  proficiency_score : Q;
  total_required_skills : nat;
  skills_present : nat;
  matched_skills : list SkillMatch;
  present_skills : list string;
  missing_skills : list string;
  critical_missing : list string;
  important_missing : list string;
  nice_to_have_missing : list string;
  missing_hot_technologies : list string;
  missing_in_demand : list string;
  recommendations : Recommendations;
  skill_categories : list (string * list string)
}.

(** [x in l] on a Python list of strings. *)
Definition py_in (x : string) (l : list string) : bool := bool_decide (x ∈ l).

(** ** Learning path ([_create_learning_path] and its helpers) *)

Module LearningPath.

(** The literal [skill_categories], in insertion order. *)
Definition skill_categories : list (string * list string) :=
  [ ("programming", ["Python"; "Java"; "JavaScript"; "C++"; "R"]);
    ("data_science", ["Machine Learning"; "Deep Learning"; "Statistics"; "Data Analysis"]);
    ("web", ["HTML"; "CSS"; "React"; "Angular"; "Node.js"]);
    ("database", ["SQL"; "MySQL"; "PostgreSQL"; "MongoDB"]);
    ("cloud", ["AWS"; "Azure"; "Google Cloud"; "Docker"; "Kubernetes"]);
    ("tools", ["Git"; "Docker"; "Jenkins"; "Tableau"]) ].

(** [any(cat_skill.lower() in skill.lower() for cat_skill in cat_skills)] *)
Definition mentions (cat_skills : list string) (skill : string) : bool :=
  existsb (λ cat_skill, PyStr.contains (PyStr.lower cat_skill) (PyStr.lower skill))
          cat_skills.

(** The inner [for cat, cat_skills in skill_categories.items()] with its
    [break]: the first category one of whose keywords occurs in the skill,
    ["other"] when none does. *)
Definition category_of (skill : string) : string :=
  match List.find (λ entry, mentions entry.2 skill) skill_categories with
  | Some entry => entry.1
  | None => "other"
  end.

(** One turn of the grouping loop on the dictionary [categorized_skills]. *)
Definition group_step (categorized_skills : gmap string (list string))
    (skill : string) : gmap string (list string) :=
  let category := category_of skill in
  let categorized_skills :=
    match categorized_skills !! category with
    | None => <[category := []]> categorized_skills
    | Some _ => categorized_skills
    end in
  <[category := default [] (categorized_skills !! category) ++ [skill]]>
    categorized_skills.

Definition group_skills (skills : list string) : gmap string (list string) :=
  fold_left group_step skills ∅.

Definition order : list string :=
  ["programming"; "database"; "tools"; "data_science"; "web"; "cloud"; "other"].

Definition time_map : gmap string Z :=
  list_to_map [ ("programming", 8%Z); ("data_science", 12%Z); ("web", 6%Z);
                ("database", 4%Z); ("cloud", 6%Z); ("tools", 2%Z); ("other", 4%Z) ].

Definition _estimate_learning_time (skill category : string) : Z :=
  default 4%Z (time_map !! category).

Definition prereq_map : gmap string (list string) :=
  list_to_map [ ("Machine Learning", ["Python"; "Statistics"; "Mathematics"]);
                ("Deep Learning", ["Machine Learning"; "Python"; "TensorFlow"]);
                ("React", ["JavaScript"; "HTML"; "CSS"]);
                ("Node.js", ["JavaScript"]);
                ("Docker", ["Linux"; "Command Line"]);
                ("Kubernetes", ["Docker"; "Linux"]) ].

Definition _get_prerequisites (skill category : string) : list string :=
  default [] (prereq_map !! skill).

Definition path_item (category skill : string) : LearningPathItem :=
  {| lp_skill := skill;
     lp_category := category;
     estimated_weeks := _estimate_learning_time skill category;
     prerequisites := _get_prerequisites skill category |}.

Definition _create_learning_path (skills : list string) : list LearningPathItem :=
  let categorized_skills := group_skills skills in
  flat_map (λ category,
              match categorized_skills !! category with
              | Some members => map (path_item category) members
              | None => []
              end)
           order.

End LearningPath.

(** ** Technical buckets ([_categorize_skills]) *)

Module Buckets.

(** The [if]/[elif] chain: bucket names with their keywords, in the order
    the chain tests them. *)
Definition chain : list (string * list string) :=
  [ ("Programming Languages", ["python"; "java"; "javascript"; "c++"; "r"; "sql"]);
    ("Machine Learning/AI", ["machine learning"; "deep learning"; "tensorflow"; "scikit"; "neural"]);
    ("Web Technologies", ["html"; "css"; "react"; "angular"; "node"; "express"]);
    ("Databases", ["mysql"; "postgresql"; "mongodb"; "database"; "sql"]);
    ("Cloud & DevOps", ["aws"; "azure"; "cloud"; "docker"; "kubernetes"]);
    ("Data Analysis", ["tableau"; "power bi"; "excel"; "analytics"; "statistics"]) ].

Definition bucket_of (skill : string) : string :=
  let skill_lower := PyStr.lower skill in
  match List.find (λ entry, existsb (λ kw, PyStr.contains kw skill_lower) entry.2) chain with
  | Some entry => entry.1
  | None => "Other"
  end.

(** The keys of the literal [categories], in insertion order. *)
Definition names : list string := map fst chain ++ ["Other"].

Definition _categorize_skills (present missing : list string) : list (string * list string) :=
  let all_skills := present ++ missing in
  let categories :=
    map (λ name, (name, filter (λ skill, bucket_of skill = name) all_skills)) names in
  filter (λ kv, kv.2 ≠ []) categories.

End Buckets.

(** ** Recommendations ([_generate_recommendations]) *)

Definition priority_items (label why : string) (l : list string) : list PriorityItem :=
  map (λ s, {| pr_skill := s; priority := label; reason := why |}) l.

Definition _generate_recommendations (critical important nice_to_have : list string)
    : Recommendations :=
  let priority_order := [] in
  let priority_order :=
    match critical with
    | [] => priority_order
    | _ => priority_order ++ priority_items "Critical" "High demand and trending" critical
    end in
  let priority_order :=
    match important with
    | [] => priority_order
    | _ => priority_order ++ priority_items "Important" "Industry demand or trending" important
    end in
  let priority_order :=
    match nice_to_have with
    | [] => priority_order
    | _ => priority_order ++ priority_items "Nice-to-have" "Complementary skill" (take 5 nice_to_have)
    end in
  let all_missing := critical ++ important ++ take 3 nice_to_have in
  {| priority_order := priority_order;
     learning_path := LearningPath._create_learning_path all_missing;
     estimated_time := [] |}.

(** ** The gap computation of [analyze_skill_gap] *)

(** The importance loop over [missing_skills]: the three lists it appends
    to, as (critical, important, nice to have). *)
Definition tier_step (hot_technologies in_demand_skills : list string)
    (acc : list string * list string * list string) (skill : string)
    : list string * list string * list string :=
  let '(critical_missing, important_missing, nice_to_have_missing) := acc in
  if py_in skill hot_technologies && py_in skill in_demand_skills then
    (critical_missing ++ [skill], important_missing, nice_to_have_missing)
  else if py_in skill hot_technologies || py_in skill in_demand_skills then
    (critical_missing, important_missing ++ [skill], nice_to_have_missing)
  else
    (critical_missing, important_missing, nice_to_have_missing ++ [skill]).

Definition tiers (hot_technologies in_demand_skills missing_skills : list string)
    : list string * list string * list string :=
  fold_left (tier_step hot_technologies in_demand_skills) missing_skills ([], [], []).

(** The dictionary [get_job_required_skills] returns for an unknown job. *)
Definition unknown_job : JobEntry :=
  {| skills := Some []; tasks := Some [];
     hot_technologies := Some []; in_demand_skills := Some [] |}.

(** [(skills_present / max(total_required, 1)) * 100] *)
Definition score (skills_present total_required : nat) : Q :=
  (inject_Z (Z.of_nat skills_present) / inject_Z (Z.of_nat (Nat.max total_required 1)) * 100)%Q.

(** The body of [analyze_skill_gap] after the match step. *)
Definition gap (target_job : string) (matched_skills : list SkillMatch)
    (job_requirements : JobEntry) : Analysis :=
  let matched_skill_names := map matched_skill matched_skills in
  let required_skills := map skill (default [] (skills job_requirements)) in
  let hot_technologies := default [] (hot_technologies job_requirements) in
  let in_demand_skills := default [] (in_demand_skills job_requirements) in
  let missing_skills :=
    filter (λ skill, py_in skill matched_skill_names = false) required_skills in
  let present_skills :=
    filter (λ skill, py_in skill matched_skill_names = true) required_skills in
  let missing_hot_tech :=
    filter (λ skill, py_in skill matched_skill_names = false) hot_technologies in
  let missing_in_demand :=
    filter (λ skill, py_in skill matched_skill_names = false) in_demand_skills in
  let total_required := length required_skills in
  let skills_present := length present_skills in
  let proficiency_score := score skills_present total_required in
  let by_importance := tiers hot_technologies in_demand_skills missing_skills in
  let critical_missing := by_importance.1.1 in
  let important_missing := by_importance.1.2 in
  let nice_to_have_missing := by_importance.2 in
  {| target_job := target_job;
     proficiency_score := proficiency_score;
     total_required_skills := total_required;
     skills_present := skills_present;
     matched_skills := matched_skills;
     present_skills := present_skills;
     missing_skills := missing_skills;
     critical_missing := critical_missing;
     important_missing := important_missing;
     nice_to_have_missing := nice_to_have_missing;
     missing_hot_technologies := missing_hot_tech;
     missing_in_demand := missing_in_demand;
     recommendations :=
       _generate_recommendations critical_missing important_missing nice_to_have_missing;
     skill_categories := Buckets._categorize_skills present_skills missing_skills |}.

(** ** The analyzer object and the match step *)

(** The content of a JSON file as [open] and [json.load] see it. *)
Inductive file (A : Type) : Type :=
  | Missing
  | Malformed
  | Json (content : A).
Arguments Missing {A}.
Arguments Malformed {A}.
Arguments Json {A} content.

Definition read_json {A : Type} (f : file A) : result A :=
  match f with
  | Missing => Raise OSError
  | Malformed => Raise JSONDecodeError
  | Json content => Ok content
  end.

(** [d[key]] on a JSON object whose key may be absent. *)
Definition py_getitem {A : Type} (key : string) (field : option A) : result A :=
  match field with
  | Some v => Ok v
  | None => Raise (KeyError key)
  end.

Section Analyzer.

(** The external code. [Embedding] is the vector type; [encode] is
    [self.sbert_model.encode] on one string; [cosine u v] is the entry of
    sklearn's [cosine_similarity] for the pair of rows [u], [v];
    [fuzz_ratio] is [fuzz.ratio], an integer percentage. *)
Variable Embedding : Type.
Variable encode : string → Embedding.
Variable cosine : Embedding → Embedding → Q.
Variable fuzz_ratio : string → string → Z.

(** The embeddings file: a JSON object read at the keys ['skills'] and
    ['embeddings']. *)
Record EmbeddingData : Type := {
  ed_skills : option (list string);
  ed_embeddings : option (list Embedding)
}.

(** The fields of [self] that the methods read. *)
Record SkillGapAnalyzer : Type := {
  similarity_threshold : Q;
  skill_list : list string;
  skill_embeddings : list Embedding;
  job_skill_mapping : gmap string JobEntry
}.

(** [load_skill_data]: the [except] clause logs and re-raises, so the
    exception of the failing statement is the outcome. *)
Definition load_skill_data (self : SkillGapAnalyzer)
    (skill_embeddings_file : file EmbeddingData)
    (job_skill_mapping_file : file (gmap string JobEntry)) : result SkillGapAnalyzer :=
  embedding_data ← read_json skill_embeddings_file;
  names ← py_getitem "skills" (ed_skills embedding_data);
  embeddings ← py_getitem "embeddings" (ed_embeddings embedding_data);
  mapping ← read_json job_skill_mapping_file;
  Ok {| similarity_threshold := similarity_threshold self;
        skill_list := names;
        skill_embeddings := embeddings;
        job_skill_mapping := mapping |}.

(** The default of the parameter [similarity_threshold] of [__init__]. *)
Definition default_threshold : Q := 7 # 10.

(** [__init__]; [similarity_threshold] is [None] when the caller leaves it
    out. *)
Definition init (skill_embeddings_file : file EmbeddingData)
    (job_skill_mapping_file : file (gmap string JobEntry))
    (similarity_threshold : option Q) : result SkillGapAnalyzer :=
  load_skill_data
    {| similarity_threshold := default default_threshold similarity_threshold;
       skill_list := [];
       skill_embeddings := [];
       job_skill_mapping := ∅ |}
    skill_embeddings_file job_skill_mapping_file.

(** sklearn's [cosine_similarity(X, Y)]: [Y] must be a two-dimensional
    array, which [np.array([])] is not. *)
Definition cosine_similarity (X Y : list Embedding) : result (list (list Q)) :=
  match Y with
  | [] => Raise ValueError
  | _ => Ok (map (λ x, map (cosine x) Y) X)
  end.

(** [fuzzy_scores] of one resume skill. *)
Definition fuzzy_scores (self : SkillGapAnalyzer) (resume_skill : string) : list Q :=
  map (λ name, (inject_Z (fuzz_ratio (PyStr.lower resume_skill) (PyStr.lower name)) / 100)%Q)
      (skill_list self).

(** The body of the loop of [extract_and_match_skills] for one resume
    skill and its row of [similarities]: the record it appends, if any. *)
Definition match_one (self : SkillGapAnalyzer) (resume_skill : string)
    (skill_similarities : list Q) : result (option SkillMatch) :=
  best_match_idx ← Np.argmax skill_similarities;
  best_similarity ← py_index skill_similarities best_match_idx;
  let fuzzy_scores := fuzzy_scores self resume_skill in
  best_fuzzy_idx ← Np.argmax fuzzy_scores;
  best_fuzzy_score ← py_index fuzzy_scores best_fuzzy_idx;
  let '(final_match_idx, final_score, match_type) :=
    if Qle_bool best_fuzzy_score best_similarity
    then (best_match_idx, best_similarity, semantic)
    else (best_fuzzy_idx, best_fuzzy_score, fuzzy) in
  if Qle_bool (similarity_threshold self) final_score then
    name ← py_index (skill_list self) final_match_idx;
    Ok (Some {| original_skill := resume_skill;
                matched_skill := name;
                confidence := final_score;
                match_type := match_type |})
  else Ok None.

Fixpoint match_loop (self : SkillGapAnalyzer) (rows : list (string * list Q))
    : result (list SkillMatch) :=
  match rows with
  | [] => Ok []
  | (resume_skill, skill_similarities) :: rows' =>
      found ← match_one self resume_skill skill_similarities;
      rest ← match_loop self rows';
      Ok (option_list found ++ rest)
  end.

Definition extract_and_match_skills (self : SkillGapAnalyzer)
    (resume_skills : list string) : result (list SkillMatch) :=
  match resume_skills with
  | [] => Ok []
  | _ =>
      let resume_embeddings := map encode resume_skills in
      similarities ← cosine_similarity resume_embeddings (skill_embeddings self);
      match_loop self (zip resume_skills similarities)
  end.

Definition get_job_required_skills (self : SkillGapAnalyzer)
    (job_profession : string) : JobEntry :=
  match job_skill_mapping self !! job_profession with
  | None => unknown_job
  | Some entry => entry
  end.

Definition analyze_skill_gap (self : SkillGapAnalyzer)
    (resume_skills : list string) (target_job : string) : result Analysis :=
  matched_skills ← extract_and_match_skills self resume_skills;
  Ok (gap target_job matched_skills (get_job_required_skills self target_job)).

End Analyzer.

Arguments ed_skills {Embedding} _.
Arguments ed_embeddings {Embedding} _.
Arguments similarity_threshold {Embedding} _.
Arguments skill_list {Embedding} _.
Arguments skill_embeddings {Embedding} _.
Arguments job_skill_mapping {Embedding} _.
Arguments load_skill_data {Embedding} self _ _.
Arguments init {Embedding} _ _ _.
Arguments cosine_similarity {Embedding} cosine X Y.
Arguments fuzzy_scores {Embedding} fuzz_ratio self resume_skill.
Arguments match_one {Embedding} fuzz_ratio self resume_skill skill_similarities.
Arguments match_loop {Embedding} fuzz_ratio self rows.
Arguments extract_and_match_skills {Embedding} encode cosine fuzz_ratio self resume_skills.
Arguments get_job_required_skills {Embedding} self job_profession.
Arguments analyze_skill_gap {Embedding} encode cosine fuzz_ratio self resume_skills target_job.

(** ** Notions used to state the properties *)

(** A usable vocabulary: at least one skill name, and one embedding per
    name. *)
Definition vocabulary_ok {Embedding : Type} (self : SkillGapAnalyzer Embedding) : Prop :=
  skill_list self ≠ [] ∧ length (skill_embeddings self) = length (skill_list self).

(** The row of [similarities] of one resume skill: its cosine with every
    embedding of the vocabulary. *)
Definition semantic_scores {Embedding : Type} (encode : string → Embedding)
    (cosine : Embedding → Embedding → Q) (self : SkillGapAnalyzer Embedding)
    (resume_skill : string) : list Q :=
  map (cosine (encode resume_skill)) (skill_embeddings self).

(** The job's ["skills"] entries, and their names in order and with their
    repetitions: [required_skills] of [analyze_skill_gap]. *)
Definition job_entries {Embedding : Type} (self : SkillGapAnalyzer Embedding)
    (target_job : string) : list SkillInfo :=
  default [] (skills (get_job_required_skills self target_job)).

Definition required_skills {Embedding : Type} (self : SkillGapAnalyzer Embedding)
    (target_job : string) : list string :=
  map skill (job_entries self target_job).

Definition hot_list {Embedding : Type} (self : SkillGapAnalyzer Embedding)
    (target_job : string) : list string :=
  default [] (hot_technologies (get_job_required_skills self target_job)).

Definition in_demand_list {Embedding : Type} (self : SkillGapAnalyzer Embedding)
    (target_job : string) : list string :=
  default [] (in_demand_skills (get_job_required_skills self target_job)).

(** What the loop body of [extract_and_match_skills] appends for a
    candidate: [None] when it appends nothing (also when it raises). *)
Definition emitted_record {Embedding : Type} (encode : string → Embedding)
    (cosine : Embedding → Embedding → Q) (fuzz_ratio : string → string → Z)
    (self : SkillGapAnalyzer Embedding) (candidate : string) : option SkillMatch :=
  match match_one fuzz_ratio self candidate (semantic_scores encode cosine self candidate) with
  | Ok found => found
  | Raise _ => None
  end.

(** [m] is a highest score of the row [l], reached at index [i]. *)
Definition highest_at (l : list Q) (i : nat) (m : Q) : Prop :=
  l !! i = Some m ∧ Forall (λ x, x <= m)%Q l.

(** A list of skill names read as a set. *)
Definition skill_set (l : list string) : gset string := list_to_set l.

(** The importance tiers, as the specification names them: both flags give
    [Critical], exactly one gives [Important], none gives [NiceToHave]. The
    flags of a skill are its membership in the job's [hot_technologies] and
    [in_demand_skills] lists. *)
Inductive Tier : Type := Critical | Important | NiceToHave.

#[export] Instance Tier_eq_dec : EqDecision Tier.
Proof. solve_decision. Defined.

Definition tier_of (hot_technologies in_demand_skills : list string) (skill : string) : Tier :=
  match py_in skill hot_technologies, py_in skill in_demand_skills with
  | true, true => Critical
  | false, false => NiceToHave
  | _, _ => Important
  end.

(** The score as the specification words it: the required list is
    deduplicated first, then [100 * |present| / max(|required|, 1)]. *)
Definition spec_proficiency (matched_skill_names required : list string) : Q :=
  let required := remove_dups required in
  let present := filter (λ skill, skill ∈ matched_skill_names) required in
  (100 * inject_Z (Z.of_nat (length present))
   / inject_Z (Z.of_nat (Nat.max (length required) 1)))%Q.

(** ** The job table builder ([DataPreprocessor.create_job_skill_mapping]) *)

Module Preprocessor.

(** A row of [self.skills_df], at the columns the builder reads. The task
    is [row.get('Tasks he wanted to learn', '')]: the cell of the row, or
    the empty text when the table has no such column. *)
Record Row : Type := {
  job_profession : string;
  row_skill : string;
  row_task : TaskCell;
  hot_technology : string;
  in_demand : string
}.

Definition fresh_entry : JobEntry :=
  {| skills := Some []; tasks := Some [];
     hot_technologies := Some []; in_demand_skills := Some [] |}.

(** One turn of the loop over the rows. *)
Definition add_row (job_skills : gmap string JobEntry) (row : Row) : gmap string JobEntry :=
  let hot_tech := bool_decide (hot_technology row = "Y") in
  let in_demand := bool_decide (in_demand row = "Y") in
  let entry := default fresh_entry (job_skills !! job_profession row) in
  let skill_info :=
    {| skill := row_skill row; task := row_task row;
       is_hot_tech := hot_tech; is_in_demand := in_demand |} in
  let old_tasks := default [] (tasks entry) in
  let old_hot := default [] (hot_technologies entry) in
  let old_in_demand := default [] (in_demand_skills entry) in
  <[job_profession row :=
      {| skills := Some (default [] (skills entry) ++ [skill_info]);
         tasks := Some (if truthy (row_task row) && negb (task_in (row_task row) old_tasks)
                        then old_tasks ++ [row_task row] else old_tasks);
         hot_technologies := Some (if hot_tech then old_hot ++ [row_skill row] else old_hot);
         in_demand_skills :=
           Some (if in_demand then old_in_demand ++ [row_skill row] else old_in_demand) |}]>
    job_skills.

Definition create_job_skill_mapping (rows : list Row) : gmap string JobEntry :=
  fold_left add_row rows ∅.

(** The two name lists of an entry repeat the flags of its ["skills"]. *)
Definition flags_listed (entry : JobEntry) : Prop :=
  ∃ infos,
    skills entry = Some infos ∧
    hot_technologies entry
    = Some (map skill (filter (λ info, is_hot_tech info = true) infos)) ∧
    in_demand_skills entry
    = Some (map skill (filter (λ info, is_in_demand info = true) infos)).

End Preprocessor.

(** ** Concrete inputs

    Stand-ins for the external code, to run the model: the embedding of a
    string is its lower-cased text, the cosine of two embeddings is 1 when
    they are equal and 0 otherwise, and the ratio of two strings is 100
    when they are equal and 0 otherwise. *)

Module Sample.

Definition encode (s : string) : string := PyStr.lower s.

Definition cosine (u v : string) : Q := if decide (u = v) then 1%Q else 0%Q.

Definition fuzz_ratio (a b : string) : Z := if decide (a = b) then 100%Z else 0%Z.

Definition vocabulary : list string := ["Python"; "SQL"; "Machine Learning"].

Definition row (skill_name task_name hot ind : string) : Preprocessor.Row :=
  {| Preprocessor.job_profession := "Data Analyst";
     Preprocessor.row_skill := skill_name;
     Preprocessor.row_task := Text task_name;
     Preprocessor.hot_technology := hot;
     Preprocessor.in_demand := ind |}.

(** A skills table in which "SQL" is listed twice for the job. *)
Definition rows : list Preprocessor.Row :=
  [ row "SQL" "write queries" "N" "Y";
    row "SQL" "tune queries" "N" "Y";
    row "Python" "write scripts" "Y" "Y";
    row "Machine Learning" "train models" "Y" "Y";
    row "Docker" "package services" "Y" "N";
    row "Excel" "build sheets" "N" "N";
    row "Git" "track changes" "N" "N";
    row "Jira" "plan work" "N" "N";
    row "Word" "write reports" "N" "N";
    row "Scrum" "run sprints" "N" "N" ].

Definition embeddings_file : file (EmbeddingData string) :=
  Json {| ed_skills := Some vocabulary; ed_embeddings := Some (map encode vocabulary) |}.

Definition jobs_file : file (gmap string JobEntry) :=
  Json (Preprocessor.create_job_skill_mapping rows).

Definition analyzer : SkillGapAnalyzer string :=
  {| similarity_threshold := 7 # 10;
     skill_list := vocabulary;
     skill_embeddings := map encode vocabulary;
     job_skill_mapping := Preprocessor.create_job_skill_mapping rows |}.

(** An embeddings file with two names and one embedding. *)
Definition short_embeddings_file : file (EmbeddingData string) :=
  Json {| ed_skills := Some ["Python"; "SQL"]; ed_embeddings := Some [encode "Python"] |}.

Definition short_analyzer : SkillGapAnalyzer string :=
  {| similarity_threshold := 7 # 10;
     skill_list := ["Python"; "SQL"];
     skill_embeddings := [encode "Python"];
     job_skill_mapping := Preprocessor.create_job_skill_mapping rows |}.

(** The record matched for the candidate ["python"]. *)
Definition python_match : SkillMatch :=
  {| original_skill := "python"; matched_skill := "Python";
     confidence := 1; match_type := semantic |}.

(** The analysis of the candidate list [["python"]] for "Data Analyst". *)
Definition analysis : Analysis :=
  gap "Data Analyst" [python_match] (get_job_required_skills analyzer "Data Analyst").

End Sample.

(** ** The remaining entry points of [skill_analyzer.py] *)

Section Batch.

Variable Embedding : Type.
Variable encode : string → Embedding.
Variable cosine : Embedding → Embedding → Q.
Variable fuzz_ratio : string → string → Z.

(** [batch_analyze_skills]: one analysis per skill list, in order; the
    first analysis that raises ends the loop. *)
Fixpoint batch_analyze_skills (self : SkillGapAnalyzer Embedding)
    (skill_lists : list (list string)) (target_job : string) : result (list Analysis) :=
  match skill_lists with
  | [] => Ok []
  | skills :: skill_lists' =>
      r ← analyze_skill_gap encode cosine fuzz_ratio self skills target_job;
      results ← batch_analyze_skills self skill_lists' target_job;
      Ok (r :: results)
  end.

End Batch.

Arguments batch_analyze_skills {Embedding} encode cosine fuzz_ratio self skill_lists target_job.

Section Courses.

(** The course client: [api_client.search_courses], which may raise. *)
Variable Course : Type.
Variable search_courses : string → result (list Course).

Record CourseRecommendation : Type := {
  cr_skill : string;
  cr_courses : list Course
}.

(** One turn of the loop of [generate_course_recommendations]: the
    [except] clause logs and goes on. *)
Definition course_step (recommendations : list CourseRecommendation) (skill : string)
    : list CourseRecommendation :=
  match search_courses skill with
  | Ok courses =>
      match courses with
      | [] => recommendations
      | _ => recommendations ++ [{| cr_skill := skill; cr_courses := take 3 courses |}]
      end
  | Raise _ => recommendations
  end.

Definition generate_course_recommendations (missing_skills : list string)
    : list CourseRecommendation :=
  fold_left course_step (take 5 missing_skills) [].

(** The entry the loop adds for a skill, if any. *)
Definition course_entry (skill : string) : option CourseRecommendation :=
  match search_courses skill with
  | Ok (course :: courses) =>
      Some {| cr_skill := skill; cr_courses := take 3 (course :: courses) |}
  | _ => None
  end.

End Courses.

Arguments cr_skill {Course} _.
Arguments cr_courses {Course} _.
Arguments course_step {Course} search_courses recommendations skill.
Arguments generate_course_recommendations {Course} search_courses missing_skills.
Arguments course_entry {Course} search_courses skill.

(** A skills table with a blank task cell, which [read_csv] returns as NaN,
    and a task that two rows repeat. *)
Definition blank_task_rows : list Preprocessor.Row :=
  [ {| Preprocessor.job_profession := "Clerk"; Preprocessor.row_skill := "Typing";
       Preprocessor.row_task := NaN 0;
       Preprocessor.hot_technology := "N"; Preprocessor.in_demand := "N" |};
    {| Preprocessor.job_profession := "Clerk"; Preprocessor.row_skill := "SQL";
       Preprocessor.row_task := Text "query";
       Preprocessor.hot_technology := "N"; Preprocessor.in_demand := "Y" |};
    {| Preprocessor.job_profession := "Clerk"; Preprocessor.row_skill := "Excel";
       Preprocessor.row_task := Text "query";
       Preprocessor.hot_technology := "N"; Preprocessor.in_demand := "N" |} ].

(** Two analyzers that differ at most in their threshold. *)
Definition same_data {Embedding : Type} (a b : SkillGapAnalyzer Embedding) : Prop :=
  skill_list a = skill_list b ∧
  skill_embeddings a = skill_embeddings b ∧
  job_skill_mapping a = job_skill_mapping b.

(** One name, two embeddings: more embeddings than names. *)
Definition wide_analyzer : SkillGapAnalyzer string :=
  {| similarity_threshold := 7 # 10;
     skill_list := ["Python"];
     skill_embeddings := [Sample.encode "Python"; Sample.encode "SQL"];
     job_skill_mapping := ∅ |}.

(** The sample analyzer with a stricter threshold. *)
Definition strict_analyzer : SkillGapAnalyzer string :=
  {| similarity_threshold := 9 # 10;
     skill_list := skill_list Sample.analyzer;
     skill_embeddings := skill_embeddings Sample.analyzer;
     job_skill_mapping := job_skill_mapping Sample.analyzer |}.

(** The sum of a list of week counts. *)
Definition total_weeks (path : list LearningPathItem) : Z :=
  foldr Z.add 0%Z (map estimated_weeks path).

(** ** The job table builder, entry by entry *)

(** The entry of a job after one more of its rows: the value that
    [Preprocessor.add_row] stores. *)
Definition entry_add (entry : JobEntry) (row : Preprocessor.Row) : JobEntry :=
  let hot_tech := bool_decide (Preprocessor.hot_technology row = "Y") in
  let in_demand := bool_decide (Preprocessor.in_demand row = "Y") in
  let skill_info :=
    {| skill := Preprocessor.row_skill row; task := Preprocessor.row_task row;
       is_hot_tech := hot_tech; is_in_demand := in_demand |} in
  let old_tasks := default [] (tasks entry) in
  let old_hot := default [] (hot_technologies entry) in
  let old_in_demand := default [] (in_demand_skills entry) in
  {| skills := Some (default [] (skills entry) ++ [skill_info]);
     tasks := Some (if truthy (Preprocessor.row_task row)
                       && negb (task_in (Preprocessor.row_task row) old_tasks)
                    then old_tasks ++ [Preprocessor.row_task row] else old_tasks);
     hot_technologies :=
       Some (if hot_tech then old_hot ++ [Preprocessor.row_skill row] else old_hot);
     in_demand_skills :=
       Some (if in_demand then old_in_demand ++ [Preprocessor.row_skill row]
             else old_in_demand) |}.

(** The ["skills"] entry written for a row. *)
Definition row_info (row : Preprocessor.Row) : SkillInfo :=
  {| skill := Preprocessor.row_skill row; task := Preprocessor.row_task row;
     is_hot_tech := bool_decide (Preprocessor.hot_technology row = "Y");
     is_in_demand := bool_decide (Preprocessor.in_demand row = "Y") |}.

(** The rows of a job, in table order. *)
Definition job_rows (rows : list Preprocessor.Row) (job : string) : list Preprocessor.Row :=
  filter (λ row, Preprocessor.job_profession row = job) rows.

(** ** Skill extraction helpers of [data_preprocessor.py] *)

Module TextSkills.

(** [_get_word_groups]: for each length from 1 to [min(max_length, 5)],
    every run of that many consecutive words. *)
Definition _get_word_groups (words : list string) (max_length : Z) : list (list string) :=
  flat_map (λ n, map (λ i, take n (drop i words)) (seq 0 (length words + 1 - n)))
           (seq 1 (Z.to_nat (Z.min (max_length + 1) 6) - 1)).

(** A match found in a text: the dictionary built by
    [extract_skills_from_text]. *)
Record ExtractedSkill : Type := {
  es_text : string;
  es_start : Z;
  es_end : Z;
  es_label : string;
  es_confidence : Q
}.

(** [skill['start'] < accepted['end'] and skill['end'] > accepted['start']] *)
Definition overlaps (skill accepted : ExtractedSkill) : bool :=
  (es_start skill <? es_end accepted)%Z && (es_end skill >? es_start accepted)%Z.

(** [sorted(skills, key=lambda x: x['confidence'], reverse=True)]: a
    stable sort by descending confidence, as an insertion from the right:
    [x] goes before the first element whose confidence is at most its
    own. *)
Fixpoint insert_by_confidence (x : ExtractedSkill) (l : list ExtractedSkill)
    : list ExtractedSkill :=
  match l with
  | [] => [x]
  | y :: l' =>
      if Qle_bool (es_confidence y) (es_confidence x) then x :: y :: l'
      else y :: insert_by_confidence x l'
  end.

Definition sorted_by_confidence (skills : list ExtractedSkill) : list ExtractedSkill :=
  foldr insert_by_confidence [] skills.

(** One turn of the filtering loop. *)
Definition keep_step (filtered_skills : list ExtractedSkill) (skill : ExtractedSkill)
    : list ExtractedSkill :=
  if existsb (overlaps skill) filtered_skills then filtered_skills
  else filtered_skills ++ [skill].

Definition _remove_overlapping_skills (skills : list ExtractedSkill) : list ExtractedSkill :=
  match skills with
  | [] => skills
  | _ => fold_left keep_step (sorted_by_confidence skills) []
  end.

(** [g] is a run of consecutive elements of [l]. *)
Definition run_of {A : Type} (g l : list A) : Prop := ∃ pre post, l = pre ++ g ++ post.

End TextSkills.

(** [R a b] for every [a] that comes before some [b] in the list. *)
Fixpoint all_pairs {A : Type} (R : A → A → Prop) (l : list A) : Prop :=
  match l with
  | [] => True
  | a :: l' => Forall (R a) l' ∧ all_pairs R l'
  end.

(** ** The fallback analysis of [api/analysis.py] ([perform_basic_analysis]) *)

Module Basic.

(** The field ['importance_level'] of a required-skill row: absent, null,
    or a text. *)
Inductive LevelField : Type :=
  | Absent
  | Null
  | Level (text : string).

#[export] Instance LevelField_eq_dec : EqDecision LevelField.
Proof. solve_decision. Defined.

(** A row returned by the data base for [get_job_required_skills]. *)
Record RequiredSkill : Type := {
  rs_name : string;
  rs_importance_level : LevelField
}.

(** [skill_data.get('importance_level', 'Important')]; [None] is the null
    value. *)
Definition importance (skill_data : RequiredSkill) : option string :=
  match rs_importance_level skill_data with
  | Absent => Some "Important"
  | Null => None
  | Level text => Some text
  end.

(** [any(keyword in skill_lower for keyword in keywords)] *)
Definition has_keyword (keywords : list string) (skill_lower : string) : bool :=
  existsb (λ keyword, PyStr.contains keyword skill_lower) keywords.

Definition categorize_skill_basic (skill : string) : string :=
  let skill_lower := PyStr.lower skill in
  if has_keyword ["python"; "java"; "javascript"; "programming"] skill_lower then
    "Programming Languages"
  else if has_keyword ["machine learning"; "ai"; "data science"] skill_lower then
    "Data Science"
  else if has_keyword ["sql"; "database"; "mysql"] skill_lower then
    "Database"
  else if has_keyword ["cloud"; "aws"; "azure"] skill_lower then
    "Cloud Computing"
  else "Other".

Definition estimate_learning_time_basic (skill : string) : Z :=
  let skill_lower := PyStr.lower skill in
  if has_keyword ["python"; "java"; "programming"] skill_lower then 8
  else if has_keyword ["machine learning"; "ai"] skill_lower then 12
  else if has_keyword ["sql"; "database"] skill_lower then 4
  else 6.

Definition create_basic_learning_path (skills : list string) : list LearningPathItem :=
  map (λ skill, {| lp_skill := skill;
                   lp_category := categorize_skill_basic skill;
                   estimated_weeks := estimate_learning_time_basic skill;
                   prerequisites := [] |})
      skills.

(** [any(required_skill.lower() in resume_skill.lower()
         for resume_skill in resume_skills)] *)
Definition in_resume (resume_skills : list string) (required_skill : string) : bool :=
  existsb (λ resume_skill,
             PyStr.contains (PyStr.lower required_skill) (PyStr.lower resume_skill))
          resume_skills.

(** One turn of the importance loop, on (critical, important, nice to
    have). *)
Definition importance_step (missing_skills : list string)
    (acc : list string * list string * list string) (skill_data : RequiredSkill)
    : list string * list string * list string :=
  let '(critical_missing, important_missing, nice_to_have_missing) := acc in
  let skill_name := rs_name skill_data in
  if py_in skill_name missing_skills then
    let importance := importance skill_data in
    if decide (importance = Some "Critical") then
      (critical_missing ++ [skill_name], important_missing, nice_to_have_missing)
    else if decide (importance = Some "Important") then
      (critical_missing, important_missing ++ [skill_name], nice_to_have_missing)
    else (critical_missing, important_missing, nice_to_have_missing ++ [skill_name])
  else acc.

Record BasicAnalysis : Type := {
  b_target_job : string;
  b_proficiency_score : Q;
  b_total_required_skills : nat;
  b_skills_present : nat;
  b_present_skills : list string;
  b_missing_skills : list string;
  b_critical_missing : list string;
  b_important_missing : list string;
  b_nice_to_have_missing : list string;
  b_recommendations : list PriorityItem;
  b_learning_path : list LearningPathItem
}.

(** [perform_basic_analysis], with the rows that the data base returns for
    the job ([None] when it returns nothing). *)
Definition perform_basic_analysis (resume_skills : list string)
    (required_skills_data : option (list RequiredSkill)) (job_name : string)
    : BasicAnalysis :=
  let data := default [] required_skills_data in
  let required_skills := map rs_name data in
  let present_skills := filter (λ s, in_resume resume_skills s = true) required_skills in
  let missing_skills := filter (λ s, in_resume resume_skills s = false) required_skills in
  let proficiency_score := score (length present_skills) (length required_skills) in
  let by_importance := fold_left (importance_step missing_skills) data ([], [], []) in
  let critical_missing := by_importance.1.1 in
  let important_missing := by_importance.1.2 in
  let nice_to_have_missing := by_importance.2 in
  let recommendations :=
    priority_items "Critical" "Essential skill for this role" critical_missing
    ++ priority_items "Important" "Important skill for career growth"
         (take 5 important_missing) in
  {| b_target_job := job_name;
     b_proficiency_score := proficiency_score;
     b_total_required_skills := length required_skills;
     b_skills_present := length present_skills;
     b_present_skills := present_skills;
     b_missing_skills := missing_skills;
     b_critical_missing := critical_missing;
     b_important_missing := important_missing;
     b_nice_to_have_missing := nice_to_have_missing;
     b_recommendations := recommendations;
     b_learning_path :=
       create_basic_learning_path (critical_missing ++ take 3 important_missing) |}.

(** The tier of a row of the data base. *)
Definition level_tier (skill_data : RequiredSkill) : Tier :=
  if decide (importance skill_data = Some "Critical") then Critical
  else if decide (importance skill_data = Some "Important") then Important
  else NiceToHave.

End Basic.

(** * Properties *)

Lemma bind_Ok {A B : Type} (a : A) (k : A → result B) : (x ← Ok a; k x) = k a.
Proof. reflexivity. Qed.

Lemma py_index_lookup {A : Type} (l : list A) (i : nat) (x : A) :
  l !! i = Some x → py_index l i = Ok x.
Proof. unfold py_index. by intros ->. Qed.

(** ** [numpy.argmax] *)

Lemma argmax_from_highest (pre l : list Q) (best : Q) (besti : nat) :
  (pre ++ l) !! besti = Some best →
  Forall (λ x, x <= best)%Q pre →
  ∃ m, highest_at (pre ++ l) (Np.argmax_from best besti (length pre) l) m.
Proof.
  revert pre best besti.
  induction l as [|x l IH]; intros pre best besti Hbest Hpre; simpl.
  - exists best. rewrite app_nil_r in *. by split.
  - replace (pre ++ x :: l) with ((pre ++ [x]) ++ l) in * by by rewrite <- app_assoc.
    replace (S (length pre)) with (length (pre ++ [x]))
      by (rewrite length_app; simpl; lia).
    destruct (Qle_bool x best) eqn:Hle.
    + apply IH; [done|].
      apply Forall_app. split; [done|].
      constructor; [by apply Qle_bool_iff | constructor].
    + assert (best < x)%Q as Hlt.
      { apply Qnot_le_lt. intros H. apply Qle_bool_iff in H. congruence. }
      apply IH.
      * rewrite lookup_app_l by (rewrite length_app; simpl; lia).
        by rewrite lookup_app_r, Nat.sub_diag by lia.
      * apply Forall_app. split.
        -- eapply Forall_impl; [exact Hpre|].
           intros y Hy. simpl in Hy. apply Qlt_le_weak.
           eapply Qle_lt_trans; eauto.
        -- constructor; [apply Qle_refl | constructor].
Qed.

Lemma argmax_highest (l : list Q) :
  l ≠ [] → ∃ i m, Np.argmax l = Ok i ∧ highest_at l i m.
Proof.
  destruct l as [|x l]; [done|]. intros _.
  destruct (argmax_from_highest [x] l x 0) as [m Hm].
  - done.
  - constructor; [apply Qle_refl | constructor].
  - exists (Np.argmax_from x 0 1 l), m. by split.
Qed.

Lemma argmax_empty : Np.argmax [] = Raise ValueError.
Proof. reflexivity. Qed.

(** ** The match step *)

Section MatchProperties.

Context {Embedding : Type}.
Variable encode : string → Embedding.
Variable cosine : Embedding → Embedding → Q.
Variable fuzz_ratio : string → string → Z.

Implicit Types (self : SkillGapAnalyzer Embedding) (m : SkillMatch).

Local Abbreviation emitted self := (emitted_record encode cosine fuzz_ratio self).
Local Abbreviation semantic_scores self := (semantic_scores encode cosine self).
Local Abbreviation fuzzy_scores self := (fuzzy_scores fuzz_ratio self).
Local Abbreviation match_one self := (match_one fuzz_ratio self).

Lemma similarities_rows self (resume_skills : list string) :
  skill_embeddings self ≠ [] →
  cosine_similarity cosine (map encode resume_skills) (skill_embeddings self)
  = Ok (map (semantic_scores self) resume_skills).
Proof.
  intros Hne. unfold cosine_similarity.
  destruct (skill_embeddings self) eqn:E; [done|].
  f_equal. rewrite map_map. apply map_ext. intros s.
  unfold semantic_scores. by rewrite E.
Qed.

Lemma zip_rows {A B : Type} (f : A → B) (l : list A) :
  zip l (map f l) = map (λ a, (a, f a)) l.
Proof. induction l as [|a l IH]; simpl; by rewrite ?IH. Qed.

Lemma match_loop_total self (resume_skills : list string) :
  (∀ s, s ∈ resume_skills →
        match_one self s (semantic_scores self s)
        = Ok (emitted self s)) →
  match_loop fuzz_ratio self
    (map (λ s, (s, semantic_scores self s)) resume_skills)
  = Ok (omap (emitted self) resume_skills).
Proof.
  induction resume_skills as [|s l IH]; intros Hall; [done|].
  simpl. rewrite (Hall s) by left. simpl.
  rewrite IH by (intros; apply Hall; by right). simpl.
  by destruct (emitted self s).
Qed.

Lemma vocabulary_ok_embeddings self : vocabulary_ok self → skill_embeddings self ≠ [].
Proof.
  intros [Hne Hlen] E. rewrite E in Hlen. simpl in Hlen.
  destruct (skill_list self); [done | simpl in Hlen; lia].
Qed.

(** With a usable vocabulary both [argmax] calls succeed and the chosen
    index is a valid index of [skill_list]. *)
Lemma match_one_highest self (candidate : string) :
  vocabulary_ok self →
  ∃ i_sem sem i_lex lex,
    highest_at (semantic_scores self candidate) i_sem sem ∧
    highest_at (fuzzy_scores self candidate) i_lex lex ∧
    is_Some (skill_list self !! i_sem) ∧
    is_Some (skill_list self !! i_lex) ∧
    match_one self candidate (semantic_scores self candidate)
    = (let '(final_match_idx, final_score, match_type) :=
         if Qle_bool lex sem then (i_sem, sem, semantic) else (i_lex, lex, fuzzy) in
       if Qle_bool (similarity_threshold self) final_score then
         name ← py_index (skill_list self) final_match_idx;
         Ok (Some {| original_skill := candidate; matched_skill := name;
                     confidence := final_score; match_type := match_type |})
       else Ok None).
Proof.
  intros Hok. pose proof (vocabulary_ok_embeddings self Hok) as Hemb.
  destruct Hok as [Hne Hlen].
  destruct (argmax_highest (semantic_scores self candidate))
    as (i_sem & sem & Hsem & Hhs).
  { unfold semantic_scores. by destruct (skill_embeddings self). }
  destruct (argmax_highest (fuzzy_scores self candidate))
    as (i_lex & lex & Hlex & Hhl).
  { unfold fuzzy_scores. by destruct (skill_list self). }
  exists i_sem, sem, i_lex, lex. split_and!; try done.
  - apply lookup_lt_is_Some. destruct Hhs as [Hl _].
    apply lookup_lt_Some in Hl. unfold semantic_scores in Hl.
    rewrite length_map in Hl. lia.
  - apply lookup_lt_is_Some. destruct Hhl as [Hl _].
    apply lookup_lt_Some in Hl. unfold fuzzy_scores in Hl.
    by rewrite length_map in Hl.
  - unfold match_one. rewrite Hsem, bind_Ok.
    rewrite (py_index_lookup _ _ _ (proj1 Hhs)), bind_Ok.
    rewrite Hlex, bind_Ok.
    by rewrite (py_index_lookup _ _ _ (proj1 Hhl)), bind_Ok.
Qed.

Lemma match_one_total self (candidate : string) :
  vocabulary_ok self →
  match_one self candidate (semantic_scores self candidate) = Ok (emitted self candidate).
Proof.
  intros Hok. unfold emitted_record.
  destruct (match_one_highest self candidate Hok)
    as (i_sem & sem & i_lex & lex & _ & _ & [n1 H1] & [n2 H2] & ->).
  destruct (Qle_bool lex sem);
    destruct (Qle_bool (similarity_threshold self) _); try done.
  - by rewrite (py_index_lookup _ _ _ H1).
  - by rewrite (py_index_lookup _ _ _ H2).
Qed.

(** On a usable vocabulary the match step returns, and its output is the
    per-candidate records in the order of the candidates. *)
Lemma extract_and_match_skills_total self (resume_skills : list string) :
  vocabulary_ok self →
  extract_and_match_skills encode cosine fuzz_ratio self resume_skills
  = Ok (omap (emitted self) resume_skills).
Proof.
  intros Hok. unfold extract_and_match_skills.
  destruct resume_skills as [|s l] eqn:E; [done|]. rewrite <- E. clear E.
  rewrite similarities_rows by by apply vocabulary_ok_embeddings.
  rewrite bind_Ok, zip_rows.
  apply match_loop_total. intros. by apply match_one_total.
Qed.

Lemma Qle_bool_false (x y : Q) : Qle_bool x y = false → (y < x)%Q.
Proof.
  intros H. apply Qnot_le_lt. intros Hle. apply Qle_bool_iff in Hle. congruence.
Qed.

(** C1. On a non-empty vocabulary (one embedding per name), the match step
    returns the records of the candidates in order, and for every
    candidate, with [sem] the highest cosine similarity of its row and
    [lex] the highest edit-distance ratio: a record is emitted exactly when
    the higher of the two reaches [similarity_threshold]; its confidence is
    that higher score; [match_type] is [semantic] when [sem >= lex] (ties
    go to semantic) and [fuzzy] otherwise; the matched name is the
    vocabulary entry at the winning index. *)
Theorem extract_and_match_skills_best_of_both self (resume_skills : list string) :
  vocabulary_ok self →
  extract_and_match_skills encode cosine fuzz_ratio self resume_skills
  = Ok (omap (emitted self) resume_skills) ∧
  ∀ candidate, ∃ i_sem sem i_lex lex,
    highest_at (semantic_scores self candidate) i_sem sem ∧
    highest_at (fuzzy_scores self candidate) i_lex lex ∧
    match emitted self candidate with
    | Some m =>
        original_skill m = candidate ∧
        (similarity_threshold self <= confidence m)%Q ∧
        ((lex <= sem)%Q ∧ confidence m = sem ∧ match_type m = semantic ∧
           skill_list self !! i_sem = Some (matched_skill m)
         ∨ (sem < lex)%Q ∧ confidence m = lex ∧ match_type m = fuzzy ∧
           skill_list self !! i_lex = Some (matched_skill m))
    | None => (sem < similarity_threshold self)%Q ∧ (lex < similarity_threshold self)%Q
    end.
Proof.
  intros Hok. split; [by apply extract_and_match_skills_total|].
  intros candidate. unfold emitted_record.
  destruct (match_one_highest self candidate Hok)
    as (i_sem & sem & i_lex & lex & Hs & Hl & [n1 H1] & [n2 H2] & ->).
  exists i_sem, sem, i_lex, lex. split_and!; [done..|].
  destruct (Qle_bool lex sem) eqn:Hcmp.
  - apply Qle_bool_iff in Hcmp.
    destruct (Qle_bool (similarity_threshold self) sem) eqn:Hthr.
    + apply Qle_bool_iff in Hthr.
      rewrite (py_index_lookup _ _ _ H1), bind_Ok. simpl.
      split_and!; [done..|]. left. by split_and!.
    + apply Qle_bool_false in Hthr. split; [done|].
      eapply Qle_lt_trans; eauto.
  - apply Qle_bool_false in Hcmp.
    destruct (Qle_bool (similarity_threshold self) lex) eqn:Hthr.
    + apply Qle_bool_iff in Hthr.
      rewrite (py_index_lookup _ _ _ H2), bind_Ok. simpl.
      split_and!; [done..|]. right. by split_and!.
    + apply Qle_bool_false in Hthr. split; [|done].
      eapply Qlt_trans; eauto.
Qed.

Lemma highest_at_ge (l : list Q) (i : nat) (m x : Q) :
  highest_at l i m → x ∈ l → (x <= m)%Q.
Proof. intros [_ Hall] Hx. by apply (proj1 (Forall_forall _ _) Hall). Qed.

Lemma highest_at_elem (l : list Q) (i : nat) (m : Q) : highest_at l i m → m ∈ l.
Proof. intros [Hi _]. by eapply list_elem_of_lookup_2. Qed.

Lemma percent_100 : (inject_Z 100 / 100 == 1)%Q.
Proof. reflexivity. Qed.

Lemma percent_le_1 (r : Z) : (r <= 100)%Z → (inject_Z r / 100 <= 1)%Q.
Proof. intros H. unfold Qle, Qdiv, Qmult, Qinv, inject_Z. simpl. lia. Qed.

(** C8. A candidate equal, case-insensitively, to a vocabulary entry is
    always matched when [similarity_threshold <= 1]: the output holds a
    record for it whose confidence is at least 1, hence at least the
    threshold; the confidence is exactly 1 when cosines are at most 1 and
    [fuzz.ratio] at most 100. [fuzz.ratio] gives 100 on equal strings. *)
Theorem exact_match_never_rejected self (resume_skills : list string)
    (candidate entry : string) :
  length (skill_embeddings self) = length (skill_list self) →
  (∀ s, fuzz_ratio s s = 100%Z) →
  candidate ∈ resume_skills →
  entry ∈ skill_list self →
  PyStr.lower candidate = PyStr.lower entry →
  (similarity_threshold self <= 1)%Q →
  ∃ out m,
    extract_and_match_skills encode cosine fuzz_ratio self resume_skills = Ok out ∧
    m ∈ out ∧
    original_skill m = candidate ∧
    (1 <= confidence m)%Q ∧
    (similarity_threshold self <= confidence m)%Q ∧
    ((∀ a b, (fuzz_ratio a b <= 100)%Z) → (∀ u w, (cosine u w <= 1)%Q) →
     (confidence m == 1)%Q).
Proof.
  intros Hlen Hsame Hcand Hentry Hlower Hthr.
  assert (vocabulary_ok self) as Hok.
  { split; [|done]. intros E. rewrite E in Hentry. by apply elem_of_nil in Hentry. }
  destruct (match_one_highest self candidate Hok)
    as (i_sem & sem & i_lex & lex & Hs & Hl & [n1 H1] & [n2 H2] & Hone).
  assert (1 <= lex)%Q as Hlex.
  { rewrite <- percent_100. apply (highest_at_ge _ _ _ _ Hl).
    unfold fuzzy_scores. apply list_elem_of_fmap.
    exists entry. split; [|done]. by rewrite Hlower, Hsame. }
  assert (∃ m, emitted self candidate = Some m ∧ original_skill m = candidate ∧
               (1 <= confidence m)%Q ∧
               (confidence m = sem ∧ (lex <= sem)%Q ∨ confidence m = lex))
    as (m & Hm & Horig & Hconf & Hwhich).
  { unfold emitted_record. rewrite Hone.
    destruct (Qle_bool lex sem) eqn:Hcmp.
    - apply Qle_bool_iff in Hcmp.
      assert (1 <= sem)%Q as Hsem by (eapply Qle_trans; eauto).
      assert (Qle_bool (similarity_threshold self) sem = true) as ->
        by (apply Qle_bool_iff; eapply Qle_trans; eauto).
      rewrite (py_index_lookup _ _ _ H1), bind_Ok.
      eexists. split; [done|]. simpl. split_and!; auto.
    - assert (Qle_bool (similarity_threshold self) lex = true) as ->
        by (apply Qle_bool_iff; eapply Qle_trans; eauto).
      rewrite (py_index_lookup _ _ _ H2), bind_Ok.
      eexists. split; [done|]. simpl. split_and!; auto. }
  exists (omap (emitted self) resume_skills), m.
  split_and!; try done.
  - by apply extract_and_match_skills_total.
  - apply list_elem_of_omap. by exists candidate.
  - eapply Qle_trans; eauto.
  - intros Hratio Hcos. apply Qle_antisym; [|done].
    destruct Hwhich as [[-> _] | ->].
    + apply highest_at_elem in Hs. unfold semantic_scores in Hs.
      apply list_elem_of_fmap in Hs as (u & -> & _). apply Hcos.
    + apply highest_at_elem in Hl. unfold fuzzy_scores in Hl.
      apply list_elem_of_fmap in Hl as (u & -> & _). by apply percent_le_1.
Qed.

End MatchProperties.

(** ** The gap computation *)

Section GapProperties.

Implicit Types (hot ind missing : list string) (skill : string).

Lemma tier_step_fold hot ind missing (c i n : list string) :
  fold_left (tier_step hot ind) missing (c, i, n)
  = (c ++ filter (λ s, tier_of hot ind s = Critical) missing,
     i ++ filter (λ s, tier_of hot ind s = Important) missing,
     n ++ filter (λ s, tier_of hot ind s = NiceToHave) missing).
Proof.
  revert c i n. induction missing as [|s l IH]; intros c i n; simpl.
  - by rewrite !app_nil_r.
  - assert (∃ t, tier_of hot ind s = t) as [t Ht] by eauto.
    pose proof Ht as Hstep. unfold tier_of in Hstep.
    rewrite !filter_cons, Ht. unfold tier_step at 1.
    destruct (py_in s hot), (py_in s ind); rewrite <- Hstep; simpl; rewrite IH.
    all: by rewrite <- ?app_assoc.
Qed.

Lemma tiers_filter hot ind missing :
  tiers hot ind missing
  = (filter (λ s, tier_of hot ind s = Critical) missing,
     filter (λ s, tier_of hot ind s = Important) missing,
     filter (λ s, tier_of hot ind s = NiceToHave) missing).
Proof. unfold tiers. by rewrite tier_step_fold. Qed.

(** A list filtered three ways by a total classification is split
    without loss or repetition. *)
Lemma three_way_split {A : Type} (f : A → Tier) (l : list A) :
  filter (λ x, f x = Critical) l ++ filter (λ x, f x = Important) l
    ++ filter (λ x, f x = NiceToHave) l ≡ₚ l.
Proof.
  induction l as [|x l IH]; [done|].
  rewrite !filter_cons. destruct (f x) eqn:E; repeat case_decide; try done; simpl.
  - by rewrite IH.
  - rewrite <- Permutation_middle. by rewrite IH.
  - rewrite app_assoc, <- Permutation_middle, <- app_assoc. by rewrite IH.
Qed.

Lemma score_bounds (p t : nat) : (p ≤ t)%nat → (0 <= score p t)%Q ∧ (score p t <= 100)%Q.
Proof.
  intros Hpt. unfold score.
  assert (0 < inject_Z (Z.of_nat (Nat.max t 1)))%Q as Hpos.
  { change 0%Q with (inject_Z 0). rewrite <- Zlt_Qlt. lia. }
  assert (0 <= inject_Z (Z.of_nat p))%Q as Hp.
  { change 0%Q with (inject_Z 0). rewrite <- Zle_Qle. lia. }
  split.
  - apply Qmult_le_0_compat; [|done].
    apply Qle_shift_div_l; [done|]. by rewrite Qmult_0_l.
  - apply Qle_trans with (1 * 100)%Q; [|unfold Qle; simpl; lia].
    apply Qmult_le_compat_r; [|done].
    apply Qle_shift_div_r; [done|]. rewrite Qmult_1_l.
    rewrite <- Zle_Qle. lia.
Qed.

End GapProperties.

(** ** The learning path *)

Section LearningPathProperties.

Import LearningPath.

Implicit Types (skills : list string) (m : gmap string (list string)).

Lemma group_step_lookup m (s c : string) :
  group_step m s !! c
  = if decide (category_of s = c) then Some (default [] (m !! c) ++ [s]) else m !! c.
Proof.
  unfold group_step. case_decide as Hc.
  - subst c. rewrite lookup_insert_eq. f_equal.
    destruct (m !! category_of s) eqn:E; [by rewrite E|].
    by rewrite lookup_insert_eq.
  - rewrite lookup_insert_ne by done.
    destruct (m !! category_of s); [done|]. by rewrite lookup_insert_ne.
Qed.

Lemma group_fold_lookup skills m (c : string) :
  fold_left group_step skills m !! c
  = match filter (λ s, category_of s = c) skills with
    | [] => m !! c
    | members => Some (default [] (m !! c) ++ members)
    end.
Proof.
  revert m. induction skills as [|s l IH]; intros m; [done|].
  simpl. rewrite IH, group_step_lookup, filter_cons.
  case_decide as Hc; [|done]. simpl.
  destruct (filter _ l); [done|]. by rewrite <- app_assoc.
Qed.

(** The dictionary built by the grouping loop: under each category that
    occurs, the skills of that category in input order. *)
Lemma group_skills_lookup skills (c : string) :
  group_skills skills !! c
  = match filter (λ s, category_of s = c) skills with
    | [] => None
    | members => Some members
    end.
Proof. unfold group_skills. rewrite group_fold_lookup, lookup_empty. done. Qed.

(** The path is the skills of each category, category after category in
    the fixed [order], each category keeping the input order. *)
Lemma create_learning_path_grouped skills :
  _create_learning_path skills
  = flat_map (λ c, map (path_item c) (filter (λ s, category_of s = c) skills)) order.
Proof.
  unfold _create_learning_path. apply flat_map_ext. intros c.
  rewrite group_skills_lookup. by destruct (filter _ skills).
Qed.

Lemma create_learning_path_skills skills :
  map lp_skill (_create_learning_path skills)
  = flat_map (λ c, filter (λ s, category_of s = c) skills) order.
Proof.
  rewrite create_learning_path_grouped.
  induction order as [|c cs IH]; [done|].
  simpl. rewrite map_app, IH, map_map. simpl. by rewrite map_id.
Qed.

Lemma create_learning_path_category skills (item : LearningPathItem) :
  item ∈ _create_learning_path skills →
  lp_category item = category_of (lp_skill item) ∧ lp_skill item ∈ skills.
Proof.
  rewrite create_learning_path_grouped, list_elem_of_In, in_flat_map.
  intros (c & _ & Hin). apply list_elem_of_In, list_elem_of_fmap in Hin
    as (s & -> & Hs).
  apply list_elem_of_filter in Hs as [<- Hs]. done.
Qed.

Lemma category_of_in_order (s : string) : category_of s ∈ order.
Proof.
  unfold category_of.
  destruct (find _ skill_categories) as [entry|] eqn:E.
  - apply find_some in E as [Hin _]. apply list_elem_of_In in Hin.
    assert (Forall (λ e : string * list string, e.1 ∈ order) skill_categories) as Hall
      by (repeat constructor; by apply (bool_decide_unpack _)).
    by apply (proj1 (Forall_forall _ _) Hall).
  - by apply (bool_decide_unpack _).
Qed.

Lemma grouped_cons {A : Type} (f : A → string) (cs : list string) (x : A) (l : list A) :
  NoDup cs →
  flat_map (λ c, filter (λ a, f a = c) (x :: l)) cs
  ≡ₚ (if decide (f x ∈ cs) then [x] else []) ++ flat_map (λ c, filter (λ a, f a = c) l) cs.
Proof.
  induction cs as [|c cs IH]; intros Hnd; [done|].
  apply NoDup_cons in Hnd as [Hc Hnd]. simpl.
  rewrite IH by done. rewrite filter_cons.
  destruct (decide (f x = c)) as [Hx|Hx].
  - rewrite (decide_True (P := f x ∈ c :: cs)) by (subst; left).
    rewrite (decide_False (P := f x ∈ cs)) by (by subst). done.
  - destruct (decide (f x ∈ cs)) as [Hin|Hin].
    + rewrite (decide_True (P := f x ∈ c :: cs)) by by right. simpl.
      by rewrite <- Permutation_middle.
    + rewrite (decide_False (P := f x ∈ c :: cs)); [done|].
      intros [?|?]%elem_of_cons; done.
Qed.

Lemma grouped_permutation {A : Type} (f : A → string) (cs : list string) (l : list A) :
  NoDup cs → (∀ a, f a ∈ cs) →
  flat_map (λ c, filter (λ a, f a = c) l) cs ≡ₚ l.
Proof.
  intros Hnd Hall. induction l as [|x l IH].
  - clear Hnd Hall. by induction cs as [|c cs IHcs].
  - rewrite grouped_cons by done. rewrite decide_True by done.
    simpl. by rewrite IH.
Qed.

Lemma order_NoDup : NoDup order.
Proof. by apply (bool_decide_unpack _). Qed.

(** Every input skill is on the path exactly once. *)
Lemma create_learning_path_permutation skills :
  map lp_skill (_create_learning_path skills) ≡ₚ skills.
Proof.
  rewrite create_learning_path_skills.
  apply grouped_permutation; [apply order_NoDup | apply category_of_in_order].
Qed.

End LearningPathProperties.

(** ** The job table builder *)

Section PreprocessorProperties.

Import Preprocessor.

Lemma fresh_entry_flags_listed : flags_listed fresh_entry.
Proof. by exists []. Qed.

Lemma add_row_flags_listed (job_skills : gmap string JobEntry) (row : Row) :
  map_Forall (λ _ entry, flags_listed entry) job_skills →
  map_Forall (λ _ entry, flags_listed entry) (add_row job_skills row).
Proof.
  intros Hall. unfold add_row. apply map_Forall_insert_2; [|done].
  assert (flags_listed (default fresh_entry (job_skills !! job_profession row)))
    as (infos & Hs & Hh & Hd).
  { destruct (job_skills !! job_profession row) eqn:E; simpl.
    - by eapply Hall.
    - apply fresh_entry_flags_listed. }
  rewrite Hs, Hh, Hd. simpl.
  exists (infos ++
    [{| skill := row_skill row; task := row_task row;
        is_hot_tech := bool_decide (hot_technology row = "Y");
        is_in_demand := bool_decide (in_demand row = "Y") |}]).
  rewrite !filter_app, !map_app, !filter_cons, !filter_nil. simpl.
  split_and!; [done|..]; f_equal.
  - destruct (bool_decide (hot_technology row = "Y")); simpl; [done|].
    by rewrite app_nil_r.
  - destruct (bool_decide (in_demand row = "Y")); simpl; [done|].
    by rewrite app_nil_r.
Qed.

Lemma fold_add_row_flags_listed (rows : list Row) (job_skills : gmap string JobEntry) :
  map_Forall (λ _ entry, flags_listed entry) job_skills →
  map_Forall (λ _ entry, flags_listed entry) (fold_left add_row rows job_skills).
Proof.
  revert job_skills. induction rows as [|row rows IH]; intros m Hm; [done|].
  simpl. by apply IH, add_row_flags_listed.
Qed.

(** In a table written by the builder, a skill is listed as hot
    technology (as in demand) exactly when one of the job's entries for it
    has the flag. *)
Lemma create_job_skill_mapping_flags (rows : list Row) (job : string) (entry : JobEntry) :
  create_job_skill_mapping rows !! job = Some entry →
  ∀ s,
    (s ∈ default [] (hot_technologies entry) ↔
     ∃ info, info ∈ default [] (skills entry) ∧ skill info = s ∧ is_hot_tech info = true) ∧
    (s ∈ default [] (in_demand_skills entry) ↔
     ∃ info, info ∈ default [] (skills entry) ∧ skill info = s ∧ is_in_demand info = true).
Proof.
  intros Hjob s.
  assert (flags_listed entry) as (infos & -> & -> & ->).
  { eapply (fold_add_row_flags_listed rows ∅); [|exact Hjob].
    apply map_Forall_empty. }
  simpl. split.
  - rewrite list_elem_of_fmap. split.
    + intros (info & -> & [Hf Hin]%list_elem_of_filter). by exists info.
    + intros (info & Hin & <- & Hf). exists info. split; [done|].
      by apply list_elem_of_filter.
  - rewrite list_elem_of_fmap. split.
    + intros (info & -> & [Hf Hin]%list_elem_of_filter). by exists info.
    + intros (info & Hin & <- & Hf). exists info. split; [done|].
      by apply list_elem_of_filter.
Qed.

End PreprocessorProperties.

(** ** The analysis *)

Section AnalysisProperties.

Context {Embedding : Type}.
Variable encode : string → Embedding.
Variable cosine : Embedding → Embedding → Q.
Variable fuzz_ratio : string → string → Z.

Implicit Types (self : SkillGapAnalyzer Embedding) (r : Analysis).

Local Abbreviation analyze self := (analyze_skill_gap encode cosine fuzz_ratio self).

(** Names the lists of the job in a goal in which [gap] was unfolded. *)
Ltac fold_job self job :=
  fold (job_entries self job);
  fold (required_skills self job) (hot_list self job) (in_demand_list self job).

(** A returned analysis is [gap] at the matched records. *)
Lemma analyze_skill_gap_inv self (resume_skills : list string) (job : string) r :
  analyze self resume_skills job = Ok r →
  ∃ matched,
    extract_and_match_skills encode cosine fuzz_ratio self resume_skills = Ok matched ∧
    r = gap job matched (get_job_required_skills self job).
Proof.
  unfold analyze_skill_gap.
  destruct (extract_and_match_skills encode cosine fuzz_ratio self resume_skills) as [matched|e]; [|done].
  rewrite bind_Ok. intros [= <-]. by exists matched.
Qed.

(** The analysis returns whenever the vocabulary is usable. *)
Lemma analyze_skill_gap_total self (resume_skills : list string) (job : string) :
  vocabulary_ok self →
  analyze self resume_skills job
  = Ok (gap job (omap (emitted_record encode cosine fuzz_ratio self) resume_skills)
            (get_job_required_skills self job)).
Proof.
  intros Hok. unfold analyze_skill_gap.
  by rewrite (extract_and_match_skills_total _ _ _ _ _ Hok).
Qed.

Lemma py_in_true (x : string) (l : list string) : py_in x l = true ↔ x ∈ l.
Proof. unfold py_in. by rewrite bool_decide_eq_true. Qed.

(** Without embeddings the match step raises as soon as there is a
    candidate, whatever the job. *)
Lemma analyze_skill_gap_no_embeddings self (candidate : string)
    (resume_skills : list string) (job : string) :
  skill_embeddings self = [] →
  analyze self (candidate :: resume_skills) job = Raise ValueError.
Proof.
  intros Hemb. unfold analyze_skill_gap, extract_and_match_skills, cosine_similarity.
  by rewrite Hemb.
Qed.

(** C3. In every returned analysis no skill is both present and missing,
    and the present and missing skills together are exactly the
    deduplicated required skills of the job. *)
Theorem present_missing_partition self (resume_skills : list string) (job : string) r :
  analyze self resume_skills job = Ok r →
  skill_set (present_skills r) ## skill_set (missing_skills r) ∧
  skill_set (present_skills r) ∪ skill_set (missing_skills r)
  = skill_set (remove_dups (required_skills self job)).
Proof.
  intros (matched & _ & ->)%analyze_skill_gap_inv. unfold skill_set. simpl.
  fold_job self job.
  split.
  - apply elem_of_disjoint. intros s.
    rewrite !elem_of_list_to_set, !list_elem_of_filter.
    intros [H1 _] [H2 _]. congruence.
  - apply set_eq. intros s.
    rewrite elem_of_union, !elem_of_list_to_set, elem_of_remove_dups,
      !list_elem_of_filter.
    destruct (py_in s (map matched_skill matched)); intuition congruence.
Qed.

(** C4. In every returned analysis the three importance lists are the
    missing skills of the tier [Critical] (listed both as hot technology
    and as in demand for the job), [Important] (listed in exactly one) and
    [NiceToHave] (listed in neither); they are pairwise disjoint, and
    together they hold every missing skill, as often as it is missing. In
    a job table written by [create_job_skill_mapping], a skill is listed as
    hot technology (as in demand) exactly when an entry of the job for it
    has the flag [is_hot_tech] ([is_in_demand]). *)
Theorem missing_tiers_partition self (resume_skills : list string) (job : string) r :
  analyze self resume_skills job = Ok r →
  let tier := tier_of (hot_list self job) (in_demand_list self job) in
  critical_missing r = filter (λ s, tier s = Critical) (missing_skills r) ∧
  important_missing r = filter (λ s, tier s = Important) (missing_skills r) ∧
  nice_to_have_missing r = filter (λ s, tier s = NiceToHave) (missing_skills r) ∧
  critical_missing r ## important_missing r ∧
  critical_missing r ## nice_to_have_missing r ∧
  important_missing r ## nice_to_have_missing r ∧
  critical_missing r ++ important_missing r ++ nice_to_have_missing r
    ≡ₚ missing_skills r ∧
  (∀ s, s ∈ missing_skills r ↔
        s ∈ critical_missing r ∨ s ∈ important_missing r ∨ s ∈ nice_to_have_missing r) ∧
  (∀ rows, job_skill_mapping self = Preprocessor.create_job_skill_mapping rows →
     ∀ s,
       (s ∈ hot_list self job ↔
        ∃ info, info ∈ job_entries self job ∧ skill info = s ∧ is_hot_tech info = true) ∧
       (s ∈ in_demand_list self job ↔
        ∃ info, info ∈ job_entries self job ∧ skill info = s ∧ is_in_demand info = true)).
Proof.
  intros (matched & _ & ->)%analyze_skill_gap_inv tier. simpl.
  fold_job self job.
  rewrite tiers_filter. simpl. fold tier.
  set (missing := filter _ (required_skills self job)).
  split_and!; try done.
  - intros s [H1 _]%list_elem_of_filter [H2 _]%list_elem_of_filter. congruence.
  - intros s [H1 _]%list_elem_of_filter [H2 _]%list_elem_of_filter. congruence.
  - intros s [H1 _]%list_elem_of_filter [H2 _]%list_elem_of_filter. congruence.
  - apply three_way_split.
  - intros s. rewrite !list_elem_of_filter. destruct (tier s); intuition congruence.
  - intros rows Hrows s.
    unfold hot_list, in_demand_list, job_entries, get_job_required_skills.
    rewrite Hrows.
    destruct (Preprocessor.create_job_skill_mapping rows !! job) as [entry|] eqn:E.
    + by apply (create_job_skill_mapping_flags rows job).
    + simpl. split; split.
      * by intros ?%elem_of_nil.
      * by intros (info & ?%elem_of_nil & _).
      * by intros ?%elem_of_nil.
      * by intros (info & ?%elem_of_nil & _).
Qed.

(** C10. Whatever the job's list, repetitions included (the total counts
    them: nothing is deduplicated), the score of a returned analysis lies
    between 0 and 100: [present_skills] is a sublist of the required list,
    so it is no longer than it. *)
Theorem proficiency_score_bounded self (resume_skills : list string) (job : string) r :
  analyze self resume_skills job = Ok r →
  total_required_skills r = length (required_skills self job) ∧
  skills_present r = length (present_skills r) ∧
  present_skills r `sublist_of` required_skills self job ∧
  (skills_present r ≤ total_required_skills r)%nat ∧
  (0 <= proficiency_score r)%Q ∧ (proficiency_score r <= 100)%Q.
Proof.
  intros (matched & _ & ->)%analyze_skill_gap_inv. simpl.
  fold_job self job.
  split_and!.
  - done.
  - done.
  - apply sublist_filter.
  - apply length_filter.
  - apply score_bounds, length_filter.
  - apply score_bounds, length_filter.
Qed.

(** C6. For a job that is not in the table, on a usable vocabulary, the
    analysis returns (it does not raise) a result with no required skill,
    score 0 and empty skill lists. *)
Theorem unknown_job_empty_result self (resume_skills : list string) (job : string) :
  vocabulary_ok self →
  job_skill_mapping self !! job = None →
  ∃ r,
    analyze self resume_skills job = Ok r ∧
    total_required_skills r = 0%nat ∧
    (proficiency_score r == 0)%Q ∧
    present_skills r = [] ∧
    missing_skills r = [] ∧
    critical_missing r = [] ∧ important_missing r = [] ∧ nice_to_have_missing r = [].
Proof.
  intros Hok Hjob. eexists. split; [by apply analyze_skill_gap_total|].
  unfold get_job_required_skills. rewrite Hjob. by split_and!.
Qed.

(** C9. The learning path of a returned analysis is built from the
    critical, the important and the first three nice-to-have missing
    skills and from nothing else: its skills are exactly those, each as
    often as listed; a nice-to-have skill that comes only after the third
    is missing all the same, and is not on the path. *)
Theorem learning_path_sources self (resume_skills : list string) (job : string) r :
  analyze self resume_skills job = Ok r →
  let sources :=
    critical_missing r ++ important_missing r ++ take 3 (nice_to_have_missing r) in
  learning_path (recommendations r) = LearningPath._create_learning_path sources ∧
  map lp_skill (learning_path (recommendations r)) ≡ₚ sources ∧
  (∀ s, s ∈ drop 3 (nice_to_have_missing r) →
        s ∉ take 3 (nice_to_have_missing r) →
        s ∈ missing_skills r ∧ s ∉ map lp_skill (learning_path (recommendations r))).
Proof.
  intros (matched & _ & ->)%analyze_skill_gap_inv sources. subst sources. simpl.
  fold_job self job.
  rewrite tiers_filter. simpl.
  set (missing := filter _ (required_skills self job)).
  set (tier := tier_of (hot_list self job) (in_demand_list self job)).
  split_and!; [done | apply create_learning_path_permutation |].
  intros s Hdrop Hfirst.
  assert (s ∈ filter (λ s, tier s = NiceToHave) missing) as Hnice.
  { rewrite <- (take_drop 3 (filter _ missing)). apply elem_of_app. by right. }
  apply list_elem_of_filter in Hnice as [Htier Hmiss]. split; [done|].
  rewrite create_learning_path_permutation.
  rewrite !elem_of_app, !list_elem_of_filter. intuition congruence.
Qed.

End AnalysisProperties.

(** ** Loading *)

Section LoadProperties.

Context {Embedding : Type}.

Implicit Types (self : SkillGapAnalyzer Embedding).

(** C5, as the code has it. Loading compares no lengths. When both files
    parse and the embeddings file has its two keys it succeeds, storing the
    name list and the embedding list as they are, whatever their lengths;
    it succeeds in no other case; and when it fails the exception is the
    one of the unreadable or malformed file or of the missing key. *)
Theorem load_skill_data_no_length_check self
    (skill_embeddings_file : file (EmbeddingData Embedding))
    (job_skill_mapping_file : file (gmap string JobEntry)) :
  (∀ names embeddings mapping,
     skill_embeddings_file
     = Json {| ed_skills := Some names; ed_embeddings := Some embeddings |} →
     job_skill_mapping_file = Json mapping →
     load_skill_data self skill_embeddings_file job_skill_mapping_file
     = Ok {| similarity_threshold := similarity_threshold self;
             skill_list := names;
             skill_embeddings := embeddings;
             job_skill_mapping := mapping |}) ∧
  (∀ loaded,
     load_skill_data self skill_embeddings_file job_skill_mapping_file = Ok loaded →
     skill_embeddings_file
     = Json {| ed_skills := Some (skill_list loaded);
               ed_embeddings := Some (skill_embeddings loaded) |} ∧
     job_skill_mapping_file = Json (job_skill_mapping loaded) ∧
     similarity_threshold loaded = similarity_threshold self) ∧
  (∀ e,
     load_skill_data self skill_embeddings_file job_skill_mapping_file = Raise e →
     e = OSError ∨ e = JSONDecodeError ∨ e = KeyError "skills" ∨ e = KeyError "embeddings").
Proof.
  split_and!.
  - by intros names embeddings mapping -> ->.
  - intros loaded. unfold load_skill_data.
    destruct skill_embeddings_file as [| |[[names|] [embeddings|]]];
      destruct job_skill_mapping_file; simpl; intros [= <-]; auto.
  - intros e. unfold load_skill_data.
    destruct skill_embeddings_file as [| |[[names|] [embeddings|]]];
      destruct job_skill_mapping_file; simpl; intros [= <-]; auto.
Qed.

Lemma init_default_threshold
    (skill_embeddings_file : file (EmbeddingData Embedding))
    (job_skill_mapping_file : file (gmap string JobEntry)) (loaded : SkillGapAnalyzer Embedding) :
  init skill_embeddings_file job_skill_mapping_file None = Ok loaded →
  similarity_threshold loaded = (7 # 10)%Q.
Proof.
  unfold init, load_skill_data.
  destruct skill_embeddings_file as [| |[[names|] [embeddings|]]];
    destruct job_skill_mapping_file; simpl; by intros [= <-].
Qed.

End LoadProperties.

(** C5, refuted as stated: an embeddings file with two names and one
    embedding loads, and the analyzer is built from it. *)
Lemma load_accepts_unequal_lengths :
  init Sample.short_embeddings_file Sample.jobs_file None
  = Ok Sample.short_analyzer ∧
  length (skill_list Sample.short_analyzer) = 2%nat ∧
  length (skill_embeddings Sample.short_analyzer) = 1%nat.
Proof. split_and!; reflexivity. Qed.

(** ** Concrete runs *)

Section Runs.

Import LearningPath.

(** C7, at the specification's example. The keyword "R" of the category
    programming occurs in "Docker", so "Docker" is grouped with "Python"
    and comes before "SQL": for the input Docker, Python, SQL the path is
    Docker, Python, SQL, and for each of the six orders of the three
    skills "Docker" is emitted before "SQL". *)
Theorem docker_is_emitted_before_sql :
  category_of "Docker" = "programming" ∧
  _create_learning_path ["Docker"; "Python"; "SQL"]
  = [ path_item "programming" "Docker";
      path_item "programming" "Python";
      path_item "database" "SQL" ] ∧
  Forall (λ skills,
            filter (λ s, s ≠ "Python") (map lp_skill (_create_learning_path skills))
            = ["Docker"; "SQL"])
         (permutations ["Docker"; "Python"; "SQL"]).
Proof.
  split_and!; [reflexivity | reflexivity |].
  repeat constructor.
Qed.

(** C2, at the failing input. The table has two rows for "SQL" under the
    job, so the job lists "SQL" twice; the analysis does not deduplicate:
    it counts 10 required skills where the deduplicated list has 9, and
    with the one present skill "Python" its score is 100 * 1 / 10 = 10,
    below 11, where the claim's formula over the deduplicated list gives
    100 * 1 / 9, above 11. (The float that the code returns is 10.0; the
    distance to 100 / 9 is far beyond rounding.) *)
Theorem proficiency_score_not_deduplicated :
  analyze_skill_gap Sample.encode Sample.cosine Sample.fuzz_ratio
    Sample.analyzer ["python"] "Data Analyst" = Ok Sample.analysis ∧
  required_skills Sample.analyzer "Data Analyst"
  = ["SQL"; "SQL"; "Python"; "Machine Learning"; "Docker"; "Excel"; "Git"; "Jira";
     "Word"; "Scrum"] ∧
  total_required_skills Sample.analysis = 10%nat ∧
  length (remove_dups (required_skills Sample.analyzer "Data Analyst")) = 9%nat ∧
  present_skills Sample.analysis = ["Python"] ∧
  (proficiency_score Sample.analysis == 10)%Q ∧
  (proficiency_score Sample.analysis < 11)%Q ∧
  (11 < spec_proficiency (map matched_skill (matched_skills Sample.analysis))
          (required_skills Sample.analyzer "Data Analyst"))%Q.
Proof.
  split_and!; vm_compute; reflexivity.
Qed.

End Runs.

(** ** The properties at the concrete inputs *)

Section Witnesses.

Local Abbreviation run_match := (extract_and_match_skills
  Sample.encode Sample.cosine Sample.fuzz_ratio Sample.analyzer).
Local Abbreviation run_analysis := (analyze_skill_gap
  Sample.encode Sample.cosine Sample.fuzz_ratio Sample.analyzer).

(** C1 on the sample vocabulary, for three candidates. *)
Lemma extract_and_match_skills_best_of_both_witness :
  vocabulary_ok Sample.analyzer ∧
  run_match ["python"; "pyhton"; "SQL"]
  = Ok (omap (emitted_record Sample.encode Sample.cosine Sample.fuzz_ratio
                Sample.analyzer) ["python"; "pyhton"; "SQL"]).
Proof.
  assert (vocabulary_ok Sample.analyzer) as Hok by (split; [discriminate | reflexivity]).
  split; [exact Hok|].
  exact (proj1 (extract_and_match_skills_best_of_both
                  Sample.encode Sample.cosine Sample.fuzz_ratio
                  Sample.analyzer ["python"; "pyhton"; "SQL"] Hok)).
Defined.

(** C8 for the candidate ["python"] and the entry "Python". *)
Lemma exact_match_never_rejected_witness :
  length (skill_embeddings Sample.analyzer) = length (skill_list Sample.analyzer) ∧
  (∀ s, Sample.fuzz_ratio s s = 100%Z) ∧
  "python" ∈ ["python"; "C#"] ∧
  "Python" ∈ skill_list Sample.analyzer ∧
  PyStr.lower "python" = PyStr.lower "Python" ∧
  (similarity_threshold Sample.analyzer <= 1)%Q ∧
  ∃ out m,
    run_match ["python"; "C#"] = Ok out ∧ m ∈ out ∧ original_skill m = "python" ∧
    (1 <= confidence m)%Q.
Proof.
  assert (∀ s, Sample.fuzz_ratio s s = 100%Z) as Hsame.
  { intros s. unfold Sample.fuzz_ratio. destruct (decide (s = s)); [reflexivity | contradiction]. }
  assert ("python" ∈ ["python"; "C#"]) as Hcand by constructor.
  assert ("Python" ∈ skill_list Sample.analyzer) as Hentry by constructor.
  assert (similarity_threshold Sample.analyzer <= 1)%Q as Hthr
    by (unfold Qle; simpl; lia).
  split_and!; [reflexivity | exact Hsame | exact Hcand | exact Hentry | reflexivity
              | exact Hthr |].
  destruct (exact_match_never_rejected
              Sample.encode Sample.cosine Sample.fuzz_ratio
              Sample.analyzer ["python"; "C#"] "python" "Python"
              eq_refl Hsame Hcand Hentry eq_refl Hthr)
    as (out & m & Hrun & Hin & Horig & Hconf & _).
  exists out, m. split_and!; assumption.
Defined.

(** C5, as the code has it, on the file with two names and one embedding. *)
Lemma load_skill_data_no_length_check_witness :
  load_skill_data Sample.short_analyzer Sample.short_embeddings_file Sample.jobs_file
  = Ok Sample.short_analyzer.
Proof.
  exact (proj1 (load_skill_data_no_length_check
                  Sample.short_analyzer Sample.short_embeddings_file Sample.jobs_file)
               _ _ _ eq_refl eq_refl).
Defined.

(** C3 on the sample analysis. *)
Lemma present_missing_partition_witness :
  run_analysis ["python"] "Data Analyst" = Ok Sample.analysis ∧
  skill_set (present_skills Sample.analysis)
    ## skill_set (missing_skills Sample.analysis).
Proof.
  assert (run_analysis ["python"] "Data Analyst" = Ok Sample.analysis) as Hrun
    by (vm_compute; reflexivity).
  split; [exact Hrun|].
  exact (proj1 (present_missing_partition _ _ _ _ _ _ _ Hrun)).
Defined.

(** C4 on the sample analysis. *)
Lemma missing_tiers_partition_witness :
  run_analysis ["python"] "Data Analyst" = Ok Sample.analysis ∧
  critical_missing Sample.analysis ++ important_missing Sample.analysis
    ++ nice_to_have_missing Sample.analysis ≡ₚ missing_skills Sample.analysis.
Proof.
  assert (run_analysis ["python"] "Data Analyst" = Ok Sample.analysis) as Hrun
    by (vm_compute; reflexivity).
  split; [exact Hrun|].
  destruct (missing_tiers_partition _ _ _ _ _ _ _ Hrun)
    as (_ & _ & _ & _ & _ & _ & Hperm & _ & _).
  exact Hperm.
Defined.

(** C10 on the sample analysis, whose job lists "SQL" twice. *)
Lemma proficiency_score_bounded_witness :
  run_analysis ["python"] "Data Analyst" = Ok Sample.analysis ∧
  (0 <= proficiency_score Sample.analysis)%Q ∧
  (proficiency_score Sample.analysis <= 100)%Q.
Proof.
  assert (run_analysis ["python"] "Data Analyst" = Ok Sample.analysis) as Hrun
    by (vm_compute; reflexivity).
  split; [exact Hrun|].
  destruct (proficiency_score_bounded _ _ _ _ _ _ _ Hrun) as (_ & _ & _ & _ & Hlo & Hhi).
  split; assumption.
Defined.

(** C6 for the job "Astronaut", which the sample table lacks. *)
Lemma unknown_job_empty_result_witness :
  vocabulary_ok Sample.analyzer ∧
  job_skill_mapping Sample.analyzer !! "Astronaut" = None ∧
  ∃ r, run_analysis ["python"] "Astronaut" = Ok r ∧
       total_required_skills r = 0%nat ∧ (proficiency_score r == 0)%Q ∧
       present_skills r = [] ∧ missing_skills r = [].
Proof.
  assert (vocabulary_ok Sample.analyzer) as Hok by (split; [discriminate | reflexivity]).
  assert (job_skill_mapping Sample.analyzer !! "Astronaut" = None) as Hjob
    by (vm_compute; reflexivity).
  split_and!; [exact Hok | exact Hjob |].
  destruct (unknown_job_empty_result
              Sample.encode Sample.cosine Sample.fuzz_ratio
              Sample.analyzer ["python"] "Astronaut" Hok Hjob)
    as (r & Hrun & Htotal & Hscore & Hpresent & Hmissing & _).
  exists r. split_and!; assumption.
Defined.

(** C9 on the sample analysis: "Word" is the fourth nice-to-have skill. *)
Lemma learning_path_sources_witness :
  run_analysis ["python"] "Data Analyst" = Ok Sample.analysis ∧
  ("Word" ∈ drop 3 (nice_to_have_missing Sample.analysis)) ∧
  ("Word" ∉ take 3 (nice_to_have_missing Sample.analysis)) ∧
  ("Word" ∈ missing_skills Sample.analysis) ∧
  ("Word" ∉ map lp_skill (learning_path (recommendations Sample.analysis))).
Proof.
  assert (run_analysis ["python"] "Data Analyst" = Ok Sample.analysis) as Hrun
    by (vm_compute; reflexivity).
  assert ("Word" ∈ drop 3 (nice_to_have_missing Sample.analysis)) as Hdrop
    by (apply (bool_decide_unpack _); vm_compute; reflexivity).
  assert ("Word" ∉ take 3 (nice_to_have_missing Sample.analysis)) as Htake
    by (apply (bool_decide_unpack _); vm_compute; reflexivity).
  split_and!; [exact Hrun | exact Hdrop | exact Htake | |].
  - exact (proj1 (proj2 (proj2 (learning_path_sources _ _ _ _ _ _ _ Hrun))
                        "Word" Hdrop Htake)).
  - exact (proj2 (proj2 (proj2 (learning_path_sources _ _ _ _ _ _ _ Hrun))
                        "Word" Hdrop Htake)).
Defined.

End Witnesses.

(** * Further properties *)

(** ** Substrings *)

Lemma append_nil_l (s : string) : ("" +:+ s)%string = s.
Proof. reflexivity. Qed.

Lemma append_cons (c : ascii) (a s : string) :
  (String c a +:+ s)%string = String c (a +:+ s).
Proof. reflexivity. Qed.

Lemma contains_nil (sub : string) : PyStr.contains sub "" = String.prefix sub "" || false.
Proof. reflexivity. Qed.

Lemma contains_cons (sub : string) (d : ascii) (s : string) :
  PyStr.contains sub (String d s) = String.prefix sub (String d s) || PyStr.contains sub s.
Proof. reflexivity. Qed.

Lemma prefix_app (sub s : string) :
  String.prefix sub s = true ↔ ∃ post, s = (sub +:+ post)%string.
Proof.
  revert s. induction sub as [|c sub IH]; intros s.
  - split; [intros _; exists s; reflexivity | intros _; by destruct s].
  - destruct s as [|d s].
    + split; [done | intros [post H]; by rewrite append_cons in H].
    + change (String.prefix (String c sub) (String d s))
        with (if Ascii.ascii_dec c d then String.prefix sub s else false).
      destruct (Ascii.ascii_dec c d) as [->|Hne].
      * rewrite IH.
        split; intros [post H]; exists post; rewrite append_cons in *; congruence.
      * split; [done|]. intros [post H]. rewrite append_cons in H. congruence.
Qed.

(** [contains sub s] holds exactly when [s] is some text, then [sub], then
    some text. *)
Lemma contains_app (sub s : string) :
  PyStr.contains sub s = true ↔ ∃ pre post, s = (pre +:+ sub +:+ post)%string.
Proof.
  induction s as [|d s IH].
  - rewrite contains_nil, orb_false_r, prefix_app. split.
    + intros [post ->]. by exists "", post.
    + intros (pre & post & H). destruct pre; [by exists post|].
      by rewrite append_cons in H.
  - rewrite contains_cons, orb_true_iff, prefix_app, IH. split.
    + intros [[post ->] | (pre & post & ->)].
      * by exists "", post.
      * by exists (String d pre), post.
    + intros (pre & post & H). destruct pre as [|e pre].
      * left. by exists post.
      * right. rewrite append_cons in H. injection H as -> ->. by exists pre, post.
Qed.

Lemma string_app_assoc (a b c : string) :
  ((a +:+ b) +:+ c = a +:+ (b +:+ c))%string.
Proof.
  induction a as [|x a IH]; [done|]. by rewrite !append_cons, IH.
Qed.

(** The substring test is transitive. *)
Lemma contains_trans (a b s : string) :
  PyStr.contains a b = true → PyStr.contains b s = true → PyStr.contains a s = true.
Proof.
  rewrite !contains_app. intros (p1 & q1 & ->) (p2 & q2 & ->).
  exists (p2 +:+ p1)%string, (q1 +:+ q2)%string.
  by rewrite !string_app_assoc.
Qed.

(** ** The match step, on any vocabulary *)

Section MatchAnyVocabulary.

Context {Embedding : Type}.
Variable encode : string → Embedding.
Variable cosine : Embedding → Embedding → Q.
Variable fuzz_ratio : string → string → Z.

Implicit Types (self : SkillGapAnalyzer Embedding) (m : SkillMatch).

Local Abbreviation run self := (extract_and_match_skills encode cosine fuzz_ratio self).

Lemma py_index_Ok {A : Type} (l : list A) (i : nat) (x : A) :
  py_index l i = Ok x → l !! i = Some x.
Proof. unfold py_index. destruct (l !! i); by intros [= ->]. Qed.

Lemma py_index_Raise {A : Type} (l : list A) (i : nat) (e : exception) :
  py_index l i = Raise e → e = IndexError ∧ (length l ≤ i)%nat.
Proof.
  unfold py_index. destruct (l !! i) eqn:E; [done|]. intros [= <-].
  split; [done|]. by apply lookup_ge_None.
Qed.

Lemma argmax_Ok (l : list Q) (i : nat) :
  Np.argmax l = Ok i → ∃ best : Q, highest_at l i best.
Proof.
  intros H. destruct l as [|x l]; [done|].
  destruct (argmax_highest (x :: l)) as (j & best & Hj & Hbest); [done|].
  rewrite H in Hj. injection Hj as ->. by exists best.
Qed.

Lemma argmax_Raise (l : list Q) (e : exception) :
  Np.argmax l = Raise e → e = ValueError ∧ l = [].
Proof. destruct l; [by intros [= <-] | done]. Qed.

(** A record appended by the loop body names its candidate and a
    vocabulary entry, and its confidence reaches the threshold. *)
Lemma match_one_sound self (candidate : string) (row : list Q) m :
  match_one fuzz_ratio self candidate row = Ok (Some m) →
  original_skill m = candidate ∧
  matched_skill m ∈ skill_list self ∧
  (similarity_threshold self <= confidence m)%Q.
Proof.
  unfold match_one.
  destruct (Np.argmax row) as [i|]; [rewrite bind_Ok|done].
  destruct (py_index row i) as [sem|]; [rewrite bind_Ok|done].
  destruct (Np.argmax _) as [j|]; [rewrite bind_Ok|done].
  destruct (py_index _ j) as [lex|]; [rewrite bind_Ok|done].
  destruct (Qle_bool lex sem).
  - destruct (Qle_bool _ sem) eqn:Hthr; [|done].
    destruct (py_index (skill_list self) i) as [name|] eqn:Hname; [|done].
    rewrite bind_Ok. intros [= <-]. simpl. split_and!; [done| |by apply Qle_bool_iff].
    apply py_index_Ok in Hname. by eapply list_elem_of_lookup_2.
  - destruct (Qle_bool _ lex) eqn:Hthr; [|done].
    destruct (py_index (skill_list self) j) as [name|] eqn:Hname; [|done].
    rewrite bind_Ok. intros [= <-]. simpl. split_and!; [done| |by apply Qle_bool_iff].
    apply py_index_Ok in Hname. by eapply list_elem_of_lookup_2.
Qed.

(** The loop body raises [ValueError] on an empty row or an empty name
    list, and [IndexError] only when the row is longer than the name
    list. *)
Lemma match_one_Raise self (candidate : string) (row : list Q) (e : exception) :
  match_one fuzz_ratio self candidate row = Raise e →
  e = ValueError ∧ (row = [] ∨ skill_list self = []) ∨
  e = IndexError ∧ (length (skill_list self) < length row)%nat.
Proof.
  unfold match_one.
  destruct (Np.argmax row) as [i|e1] eqn:Hi.
  2:{ intros [= <-]. apply argmax_Raise in Hi as [-> ->]. auto. }
  rewrite bind_Ok. apply argmax_Ok in Hi as (sem & Hsem & _).
  rewrite (py_index_lookup _ _ _ Hsem), bind_Ok.
  destruct (Np.argmax _) as [j|e2] eqn:Hj.
  2:{ intros [= <-]. apply argmax_Raise in Hj as [-> Hnil].
      left. split; [done|]. right.
      unfold fuzzy_scores in Hnil. by apply fmap_nil_inv in Hnil. }
  rewrite bind_Ok. apply argmax_Ok in Hj as (lex & Hlex & _).
  rewrite (py_index_lookup _ _ _ Hlex), bind_Ok.
  apply lookup_lt_Some in Hsem, Hlex.
  unfold fuzzy_scores in Hlex. rewrite length_map in Hlex.
  destruct (Qle_bool lex sem).
  - destruct (Qle_bool _ sem); [|done].
    destruct (py_index (skill_list self) i) as [name|e3] eqn:Hname; [done|].
    intros [= <-]. apply py_index_Raise in Hname as [-> Hge]. right. split; [done|lia].
  - destruct (Qle_bool _ lex); [|done].
    destruct (py_index (skill_list self) j) as [name|e3] eqn:Hname; [done|].
    intros [= <-]. apply py_index_Raise in Hname as [-> Hge]. lia.
Qed.

Lemma match_loop_Ok self (rows : list (string * list Q)) (out : list SkillMatch) :
  match_loop fuzz_ratio self rows = Ok out →
  map original_skill out `sublist_of` map fst rows ∧
  ∀ m, m ∈ out →
       matched_skill m ∈ skill_list self ∧
       (similarity_threshold self <= confidence m)%Q.
Proof.
  revert out. induction rows as [|[s row] rows IH]; intros out.
  - intros [= <-]. split; [done|]. by intros m ?%elem_of_nil.
  - simpl. destruct (match_one fuzz_ratio self s row) as [found|] eqn:Hone; [|done].
    rewrite bind_Ok.
    destruct (match_loop fuzz_ratio self rows) as [rest|]; [|done].
    rewrite bind_Ok. intros [= <-].
    destruct (IH rest eq_refl) as [Hsub Hall].
    destruct found as [m|]; simpl.
    + apply match_one_sound in Hone as (Ho & Hm & Hc). split.
      * rewrite Ho. by apply sublist_skip.
      * intros m' [->|Hin]%elem_of_cons; [done|]. by apply Hall.
    + split; [by apply sublist_cons | done].
Qed.

Lemma match_loop_Raise self (rows : list (string * list Q)) (n : nat) (e : exception) :
  Forall (λ row, length row.2 = n) rows →
  match_loop fuzz_ratio self rows = Raise e →
  e = ValueError ∧ (n = 0%nat ∨ skill_list self = []) ∨
  e = IndexError ∧ (length (skill_list self) < n)%nat.
Proof.
  induction rows as [|[s row] rows IH]; intros Hlen; [done|].
  apply Forall_cons in Hlen as [Hrow Hlen]. simpl in Hrow. simpl.
  destruct (match_one fuzz_ratio self s row) as [found|e1] eqn:Hone.
  - rewrite bind_Ok.
    destruct (match_loop fuzz_ratio self rows) as [rest|e2]; [done|].
    intros [= <-]. by apply IH.
  - intros [= <-]. apply match_one_Raise in Hone as [[-> [->|Hn]]|[-> Hlt]].
    + left. split; [done|]. left. by subst n.
    + auto.
    + right. by subst n.
Qed.

Lemma match_step_sound self (resume_skills : list string) (out : list SkillMatch) :
  run self resume_skills = Ok out →
  map original_skill out `sublist_of` resume_skills ∧
  ∀ m, m ∈ out →
       matched_skill m ∈ skill_list self ∧
       (similarity_threshold self <= confidence m)%Q.
Proof.
  intros Hrun. unfold extract_and_match_skills in Hrun.
  destruct resume_skills as [|s l] eqn:E.
  { injection Hrun as <-. split; [done|]. by intros m ?%elem_of_nil. }
  rewrite <- E in *. clear E s l.
  destruct (cosine_similarity cosine _ _) as [sims|] eqn:Hsims; [|done].
  rewrite bind_Ok in Hrun. apply match_loop_Ok in Hrun as [Hsub Hall].
  split; [|done].
  unfold cosine_similarity in Hsims.
  destruct (skill_embeddings self); [done|]. injection Hsims as <-.
  rewrite map_map, zip_rows, map_map in Hsub. simpl in Hsub.
  by rewrite map_id in Hsub.
Qed.

(** X1. Whatever the vocabulary, when the match step returns: the
    candidates of its records are a sublist of the input (input order, at
    most one record per candidate), each matched name is a vocabulary
    name, and each confidence reaches the threshold. *)
Theorem matched_records_are_sound self (resume_skills : list string)
    (out : list SkillMatch) :
  run self resume_skills = Ok out →
  map original_skill out `sublist_of` resume_skills ∧
  (length out ≤ length resume_skills)%nat ∧
  ∀ m, m ∈ out →
       matched_skill m ∈ skill_list self ∧
       (similarity_threshold self <= confidence m)%Q.
Proof.
  intros [Hsub Hall]%match_step_sound. split_and!; [done | | done].
  apply sublist_length in Hsub. by rewrite length_map in Hsub.
Qed.

Lemma rows_length self (resume_skills : list string) :
  Forall (λ row : string * list Q, length row.2 = length (skill_embeddings self))
    (map (λ s, (s, semantic_scores encode cosine self s)) resume_skills).
Proof.
  apply Forall_forall. intros row (s & -> & _)%list_elem_of_fmap. simpl.
  unfold semantic_scores. by rewrite length_map.
Qed.

(** X2. The match step raises only [ValueError], when there is a candidate
    and no embedding or no name, or [IndexError], when there are more
    embeddings than names; with at least one name and one embedding and no
    more embeddings than names it returns. *)
Theorem match_step_failures self (resume_skills : list string) :
  (∀ e, extract_and_match_skills encode cosine fuzz_ratio self resume_skills = Raise e →
        resume_skills ≠ [] ∧
        (e = ValueError ∧ (skill_embeddings self = [] ∨ skill_list self = []) ∨
         e = IndexError ∧ (length (skill_list self) < length (skill_embeddings self))%nat)) ∧
  (skill_list self ≠ [] → skill_embeddings self ≠ [] →
   (length (skill_embeddings self) ≤ length (skill_list self))%nat →
   ∃ out, extract_and_match_skills encode cosine fuzz_ratio self resume_skills = Ok out).
Proof.
  assert (∀ e, run self resume_skills = Raise e →
        resume_skills ≠ [] ∧
        (e = ValueError ∧ (skill_embeddings self = [] ∨ skill_list self = []) ∨
         e = IndexError ∧ (length (skill_list self) < length (skill_embeddings self))%nat))
    as Hfail.
  { intros e Hrun. unfold extract_and_match_skills in Hrun.
    destruct resume_skills as [|s l] eqn:E; [done|]. split; [done|].
    rewrite <- E in *. clear E s l.
    destruct (decide (skill_embeddings self = [])) as [Hemb|Hemb].
    { unfold cosine_similarity in Hrun. rewrite Hemb in Hrun.
      injection Hrun as <-. auto. }
    rewrite similarities_rows, bind_Ok, zip_rows in Hrun by done.
    apply (match_loop_Raise _ _ _ _ (rows_length self resume_skills)) in Hrun
      as [[-> [Hz|Hn]]|[-> Hlt]]; auto.
    destruct (skill_embeddings self); [done | simpl in Hz; lia]. }
  split; [done|]. intros Hn Hemb Hle.
  destruct (run self resume_skills) as [out|e] eqn:Hrun; [by exists out|].
  destruct (Hfail e eq_refl) as [_ [[_ [?|?]]|[_ ?]]]; [done | done | lia].
Qed.

Lemma omap_guard {A B : Type} (f : A → option B) (P : B → Prop)
    `{∀ b, Decision (P b)} (l : list A) :
  omap (λ a, match f a with
             | Some b => if decide (P b) then Some b else None
             | None => None
             end) l
  = filter P (omap f l).
Proof.
  induction l as [|a l IH]; [done|]. simpl.
  destruct (f a) as [b|]; simpl; [|exact IH].
  rewrite filter_cons. destruct (decide (P b)); simpl; [f_equal|]; exact IH.
Qed.

Lemma Qle_bool_trans_false (ta tb x : Q) :
  (ta <= tb)%Q → Qle_bool ta x = false → Qle_bool tb x = true → False.
Proof.
  intros Hle Ha Hb. apply Qle_bool_iff in Hb.
  assert (Qle_bool ta x = true) by (apply Qle_bool_iff; eapply Qle_trans; eauto).
  congruence.
Qed.

(** With the same vocabulary and a threshold at least as high, a candidate
    keeps its record if the confidence reaches the higher threshold and
    loses it otherwise. *)
Lemma emitted_record_stricter (a b : SkillGapAnalyzer Embedding) (candidate : string) :
  same_data a b →
  (similarity_threshold a <= similarity_threshold b)%Q →
  emitted_record encode cosine fuzz_ratio b candidate
  = match emitted_record encode cosine fuzz_ratio a candidate with
    | Some m =>
        if decide (Qle_bool (similarity_threshold b) (confidence m) = true)
        then Some m else None
    | None => None
    end.
Proof.
  destruct a as [ta names embs jobs], b as [tb names' embs' jobs'].
  unfold same_data. simpl. intros (<- & <- & <-) Hle.
  unfold emitted_record, match_one, semantic_scores, fuzzy_scores. simpl.
  destruct (Np.argmax (map (cosine (encode candidate)) embs)) as [i|]; [|done].
  rewrite !bind_Ok.
  destruct (py_index (map (cosine (encode candidate)) embs) i) as [sem|]; [|done].
  rewrite !bind_Ok.
  destruct (Np.argmax _) as [j|]; [|done].
  rewrite !bind_Ok.
  destruct (py_index _ j) as [lex|]; [|done].
  rewrite !bind_Ok.
  destruct (Qle_bool lex sem).
  - destruct (Qle_bool ta sem) eqn:Ha, (Qle_bool tb sem) eqn:Hb,
      (py_index names i) as [name|]; simpl; try done.
    + by rewrite decide_True.
    + by rewrite decide_False by congruence.
    + by destruct (Qle_bool_trans_false ta tb sem).
  - destruct (Qle_bool ta lex) eqn:Ha, (Qle_bool tb lex) eqn:Hb,
      (py_index names j) as [name|]; simpl; try done.
    + by rewrite decide_True.
    + by rewrite decide_False by congruence.
    + by destruct (Qle_bool_trans_false ta tb lex).
Qed.

(** X3. Raising the threshold only removes records: over the same
    vocabulary, the output at the higher threshold is the output at the
    lower one restricted to the records whose confidence reaches the
    higher threshold. *)
Theorem higher_threshold_filters (a b : SkillGapAnalyzer Embedding)
    (resume_skills : list string) :
  same_data a b →
  (similarity_threshold a <= similarity_threshold b)%Q →
  vocabulary_ok a →
  ∃ out,
    run a resume_skills = Ok out ∧
    run b resume_skills
    = Ok (filter (λ m, Qle_bool (similarity_threshold b) (confidence m) = true) out).
Proof.
  intros Hsame Hle Hok.
  assert (vocabulary_ok b) as Hokb.
  { destruct Hsame as (Hn & He & _), Hok as [H1 H2]. split; congruence. }
  exists (omap (emitted_record encode cosine fuzz_ratio a) resume_skills).
  split; [by apply extract_and_match_skills_total|].
  rewrite extract_and_match_skills_total by done. f_equal.
  rewrite <- omap_guard.
  induction resume_skills as [|s l IH]; [done|]. simpl.
  rewrite (emitted_record_stricter a b s) by done.
  destruct (emitted_record encode cosine fuzz_ratio a s) as [m|]; [|exact IH].
  destruct (decide _); [f_equal|]; exact IH.
Qed.

(** X4. Candidates are matched one by one: on a usable vocabulary the
    output for two candidate lists put end to end is the two outputs put
    end to end. *)
Theorem match_step_concat self (first second : list string) :
  vocabulary_ok self →
  ∃ out1 out2,
    run self first = Ok out1 ∧
    run self second = Ok out2 ∧
    run self (first ++ second) = Ok (out1 ++ out2).
Proof.
  intros Hok. eexists _, _. split_and!.
  - by apply extract_and_match_skills_total.
  - by apply extract_and_match_skills_total.
  - rewrite extract_and_match_skills_total by done. f_equal. apply omap_app.
Qed.

End MatchAnyVocabulary.

(** ** The analysis, further *)

Section AnalysisFurther.

Context {Embedding : Type}.
Variable encode : string → Embedding.
Variable cosine : Embedding → Embedding → Q.
Variable fuzz_ratio : string → string → Z.

Implicit Types (self : SkillGapAnalyzer Embedding) (r : Analysis).

Local Abbreviation analyze self := (analyze_skill_gap encode cosine fuzz_ratio self).
Local Abbreviation batch self := (batch_analyze_skills encode cosine fuzz_ratio self).

Ltac name_job_lists self job :=
  fold (job_entries self job);
  fold (required_skills self job) (hot_list self job) (in_demand_list self job).

Lemma length_filter_bool {A : Type} (f : A → bool) (l : list A) :
  (length (filter (λ x, f x = true) l) + length (filter (λ x, f x = false) l)
   = length l)%nat.
Proof.
  induction l as [|x l IH]; [done|].
  rewrite !filter_cons. destruct (f x); simpl; lia.
Qed.

(** X5. The counts of a returned analysis add up: the present and the
    missing skills are as many as the required ones, and the three
    importance lists are as many as the missing ones. *)
Theorem analysis_counts_add_up self (resume_skills : list string) (job : string) r :
  analyze_skill_gap encode cosine fuzz_ratio self resume_skills job = Ok r →
  (skills_present r + length (missing_skills r) = total_required_skills r)%nat ∧
  (length (critical_missing r) + length (important_missing r)
   + length (nice_to_have_missing r) = length (missing_skills r))%nat.
Proof.
  intros (matched & _ & ->)%analyze_skill_gap_inv. simpl.
  name_job_lists self job. rewrite tiers_filter. simpl. split.
  - apply length_filter_bool.
  - set (missing := filter _ (required_skills self job)).
    pose proof (Permutation_length
      (three_way_split (tier_of (hot_list self job) (in_demand_list self job)) missing))
      as Hsum.
    rewrite !length_app in Hsum. lia.
Qed.

Lemma score_full (p t : nat) :
  (p ≤ t)%nat → (score p t == 100)%Q ↔ p = t ∧ t ≠ 0%nat.
Proof.
  intros Hpt. unfold score.
  destruct (Nat.max t 1) as [|d] eqn:Hd; [lia|].
  unfold Qeq, Qdiv, Qmult, Qinv, inject_Z. simpl. lia.
Qed.

Lemma score_zero (p t : nat) : (score p t == 0)%Q ↔ p = 0%nat.
Proof.
  unfold score.
  destruct (Nat.max t 1) as [|d] eqn:Hd; [lia|].
  unfold Qeq, Qdiv, Qmult, Qinv, inject_Z. simpl. lia.
Qed.

(** X6. The score of a returned analysis is 100 exactly when the job
    requires something and nothing is missing, and 0 exactly when nothing
    is present. *)
Theorem score_extremes self (resume_skills : list string) (job : string) r :
  analyze self resume_skills job = Ok r →
  ((proficiency_score r == 100)%Q ↔
   required_skills self job ≠ [] ∧ missing_skills r = []) ∧
  ((proficiency_score r == 0)%Q ↔ present_skills r = []).
Proof.
  intros (matched & _ & ->)%analyze_skill_gap_inv. simpl.
  name_job_lists self job.
  set (names := map matched_skill matched).
  pose proof (length_filter_bool (λ s, py_in s names) (required_skills self job)) as Hsum.
  split.
  - rewrite score_full by apply length_filter.
    rewrite <- !length_zero_iff_nil. lia.
  - rewrite score_zero. by rewrite length_zero_iff_nil.
Qed.

Lemma py_in_false (x : string) (l : list string) : py_in x l = false ↔ x ∉ l.
Proof. unfold py_in. by rewrite bool_decide_eq_false. Qed.

Lemma tier_of_Critical (hot ind : list string) (s : string) :
  tier_of hot ind s = Critical ↔ s ∈ hot ∧ s ∈ ind.
Proof.
  unfold tier_of. rewrite <- !py_in_true.
  destruct (py_in s hot), (py_in s ind); split; intros; try done; intuition congruence.
Qed.

Lemma tier_of_NiceToHave (hot ind : list string) (s : string) :
  tier_of hot ind s = NiceToHave ↔ (s ∉ hot) ∧ (s ∉ ind).
Proof.
  unfold tier_of. rewrite <- !py_in_true.
  destruct (py_in s hot), (py_in s ind); split; intros; try done; intuition congruence.
Qed.

(** X7. In a returned analysis the two lists of missing hot technologies
    and missing in-demand skills are the job's two lists without the
    matched names, and they decide the tier of a missing skill: it is
    critical exactly when it is in both, nice to have exactly when it is
    in neither, important otherwise. *)
Theorem missing_flag_lists_decide_tier self (resume_skills : list string)
    (job : string) r :
  analyze self resume_skills job = Ok r →
  ∀ s,
    (s ∈ missing_hot_technologies r ↔
     s ∈ hot_list self job ∧ (s ∉ map matched_skill (matched_skills r))) ∧
    (s ∈ missing_in_demand r ↔
     s ∈ in_demand_list self job ∧ (s ∉ map matched_skill (matched_skills r))) ∧
    (s ∈ critical_missing r ↔
     s ∈ missing_skills r ∧ s ∈ missing_hot_technologies r ∧ s ∈ missing_in_demand r) ∧
    (s ∈ nice_to_have_missing r ↔
     s ∈ missing_skills r ∧ (s ∉ missing_hot_technologies r) ∧
     (s ∉ missing_in_demand r)) ∧
    (s ∈ important_missing r ↔
     s ∈ missing_skills r ∧
     ¬ (s ∈ missing_hot_technologies r ↔ s ∈ missing_in_demand r)).
Proof.
  intros (matched & _ & ->)%analyze_skill_gap_inv s. simpl.
  name_job_lists self job. rewrite tiers_filter. simpl.
  set (names := map matched_skill matched).
  set (tier := tier_of (hot_list self job) (in_demand_list self job)).
  rewrite !list_elem_of_filter.
  pose proof (tier_of_Critical (hot_list self job) (in_demand_list self job) s) as Hc.
  pose proof (tier_of_NiceToHave (hot_list self job) (in_demand_list self job) s) as Hn.
  fold tier in Hc, Hn.
  rewrite !py_in_false.
  split_and!; [tauto | tauto | tauto | tauto |].
  destruct (tier s) eqn:E.
  - split; [by intros [? _]|]. intros [[Hm _] Hx]. destruct Hx. tauto.
  - split; [|tauto]. intros [_ [Hm Hreq]]. split; [done|].
    intros Hiff.
    destruct (decide (s ∈ hot_list self job)) as [Hh|Hh];
      destruct (decide (s ∈ in_demand_list self job)) as [Hi|Hi].
    + assert (Important = Critical) by (apply Hc; tauto). done.
    + tauto.
    + tauto.
    + assert (Important = NiceToHave) by (apply Hn; tauto). done.
  - split; [by intros [? _]|]. intros [[Hm _] Hx]. destruct Hx. tauto.
Qed.

Lemma filter_all {A : Type} (P : A → Prop) `{∀ x, Decision (P x)} (l : list A) :
  (∀ x, x ∈ l → P x) → filter P l = l.
Proof.
  induction l as [|x l IH]; intros Hall; [done|].
  rewrite filter_cons_True by (apply Hall; left).
  f_equal. apply IH. intros y Hy. apply Hall. by right.
Qed.

Lemma filter_none {A : Type} (P : A → Prop) `{∀ x, Decision (P x)} (l : list A) :
  (∀ x, x ∈ l → ¬ P x) → filter P l = [].
Proof.
  induction l as [|x l IH]; intros Hall; [done|].
  rewrite filter_cons_False by (apply Hall; left).
  apply IH. intros y Hy. apply Hall. by right.
Qed.

(** X8. Without candidates the analysis returns, whatever the vocabulary
    (also an empty one): nothing is matched or present, every required
    skill is missing, the score is 0, and the whole hot and in-demand
    lists are missing. *)
Theorem no_candidates_everything_missing self (job : string) :
  ∃ r,
    analyze self [] job = Ok r ∧
    matched_skills r = [] ∧
    present_skills r = [] ∧
    missing_skills r = required_skills self job ∧
    (proficiency_score r == 0)%Q ∧
    missing_hot_technologies r = hot_list self job ∧
    missing_in_demand r = in_demand_list self job.
Proof.
  eexists. split; [reflexivity|]. simpl. name_job_lists self job.
  split_and!.
  - done.
  - by apply filter_none.
  - by apply filter_all.
  - apply score_zero. by rewrite filter_none.
  - by apply filter_all.
  - by apply filter_all.
Qed.

(** X9. A skill reported present is a required skill that some candidate
    was matched to, with a confidence that reaches the threshold; in
    particular it is a name of the vocabulary: a required skill that the
    vocabulary lacks is never present. *)
Theorem present_skills_are_vocabulary_names self (resume_skills : list string)
    (job : string) r :
  analyze self resume_skills job = Ok r →
  ∀ s, s ∈ present_skills r →
       s ∈ required_skills self job ∧
       s ∈ skill_list self ∧
       ∃ m, m ∈ matched_skills r ∧ matched_skill m = s ∧
            original_skill m ∈ resume_skills ∧
            (similarity_threshold self <= confidence m)%Q.
Proof.
  intros (matched & Hrun & ->)%analyze_skill_gap_inv s. simpl.
  name_job_lists self job.
  apply match_step_sound in Hrun as [Hsub Hall].
  intros [Hin Hreq]%list_elem_of_filter.
  apply py_in_true, list_elem_of_fmap in Hin as (m & -> & Hm).
  destruct (Hall m Hm) as [Hvoc Hconf].
  split_and!; [done..|]. exists m. split_and!; [done..| |done].
  apply (sublist_subseteq _ _ Hsub).
  apply list_elem_of_fmap. by exists m.
Qed.

(** X10. A batch is the single analyses in order: when it returns there is
    one result per skill list, each the analysis of its list; when it
    raises, the analysis of one of the lists raises that exception; on a
    usable vocabulary it returns. *)
Theorem batch_is_pointwise self (skill_lists : list (list string)) (job : string) :
  (∀ results, batch self skill_lists job = Ok results →
     Forall2 (λ skills r, analyze self skills job = Ok r) skill_lists results) ∧
  (∀ e, batch self skill_lists job = Raise e →
     ∃ skills, skills ∈ skill_lists ∧ analyze self skills job = Raise e) ∧
  (vocabulary_ok self →
   ∃ results, batch self skill_lists job = Ok results ∧
              length results = length skill_lists).
Proof.
  split_and!.
  - induction skill_lists as [|skills l IH]; intros results; simpl.
    + intros [= <-]. constructor.
    + destruct (analyze self skills job) as [r|] eqn:Hr; [rewrite bind_Ok|done].
      destruct (batch self l job) as [rs|]; [rewrite bind_Ok|done].
      intros [= <-]. constructor; [done|]. by apply IH.
  - induction skill_lists as [|skills l IH]; intros e; simpl; [done|].
    destruct (analyze self skills job) as [r|e1] eqn:Hr.
    + rewrite bind_Ok.
      destruct (batch self l job) as [rs|e2]; [done|].
      intros [= <-]. destruct (IH e2 eq_refl) as (skills' & Hin & Hraise).
      exists skills'. split; [by right | done].
    + intros [= <-]. exists skills. split; [by left | done].
  - intros Hok. induction skill_lists as [|skills l IH]; simpl.
    + by exists [].
    + destruct IH as (rs & -> & Hlen).
      rewrite (analyze_skill_gap_total _ _ _ _ _ _ Hok), !bind_Ok.
      eexists. split; [done|]. simpl. by rewrite Hlen.
Qed.

End AnalysisFurther.

(** ** Recommendations and course search *)

Section RecommendationProperties.

(** The guards on empty lists change nothing: the priority order is the
    three lists of items put end to end. *)
Lemma priority_order_flat (critical important nice_to_have : list string) :
  priority_order (_generate_recommendations critical important nice_to_have)
  = priority_items "Critical" "High demand and trending" critical
    ++ priority_items "Important" "Industry demand or trending" important
    ++ priority_items "Nice-to-have" "Complementary skill" (take 5 nice_to_have).
Proof.
  unfold _generate_recommendations, priority_order.
  destruct critical as [|c cs], important as [|i ims], nice_to_have as [|n ns];
    rewrite ?app_nil_l, ?app_nil_r; try reflexivity.
  all: by rewrite <- ?app_assoc.
Qed.

(** X11. The priority order lists the critical skills, then the important
    ones, then the first five nice-to-have ones, each with the priority of
    its list; the learning path has one item for each critical, each
    important and each of the first three nice-to-have skills. *)
Theorem recommendations_shape (critical important nice_to_have : list string) :
  let rec := _generate_recommendations critical important nice_to_have in
  map (λ item, (pr_skill item, priority item)) (priority_order rec)
  = map (λ s, (s, "Critical")) critical
    ++ map (λ s, (s, "Important")) important
    ++ map (λ s, (s, "Nice-to-have")) (take 5 nice_to_have) ∧
  (length (priority_order rec)
   = length critical + length important + Nat.min 5 (length nice_to_have))%nat ∧
  (length (learning_path rec)
   = length critical + length important + Nat.min 3 (length nice_to_have))%nat.
Proof.
  intros rec. subst rec. rewrite priority_order_flat. unfold priority_items.
  split_and!.
  - by rewrite !map_app, !map_map.
  - rewrite !length_app, !length_map, length_take.
    rewrite Nat.add_assoc. reflexivity.
  - simpl.
    rewrite <- (length_map lp_skill), (Permutation_length (create_learning_path_permutation _)).
    rewrite !length_app, length_take.
    rewrite Nat.add_assoc. reflexivity.
Qed.

Context {Course : Type}.
Variable search_courses : string → result (list Course).

Lemma course_fold (skills : list string) (acc : list (CourseRecommendation Course)) :
  fold_left (course_step search_courses) skills acc = acc ++ omap (course_entry search_courses) skills.
Proof.
  revert acc. induction skills as [|s l IH]; intros acc; simpl.
  - by rewrite app_nil_r.
  - rewrite IH. unfold course_step, course_entry.
    destruct (search_courses s) as [[|c cs]|]; simpl; try done.
    by rewrite <- app_assoc.
Qed.

(** X12. Course recommendations never fail and are bounded: at most five
    entries, for skills among the first five missing ones and in their
    order; an entry holds the first three courses of a search that
    returned at least one course, so between one and three courses; and
    each of the first five skills whose search returns courses has an
    entry. A failing search only leaves its skill out. *)
Theorem course_recommendations_bounded (missing_skills : list string) :
  let recs := generate_course_recommendations search_courses missing_skills in
  (length recs ≤ 5)%nat ∧
  map cr_skill recs `sublist_of` take 5 missing_skills ∧
  (∀ rec, rec ∈ recs →
     ∃ found, search_courses (cr_skill rec) = Ok found ∧
              cr_courses rec = take 3 found ∧
              (1 ≤ length (cr_courses rec) ≤ 3)%nat) ∧
  (∀ s found, s ∈ take 5 missing_skills →
     search_courses s = Ok found → found ≠ [] →
     ∃ rec, rec ∈ recs ∧ cr_skill rec = s ∧ cr_courses rec = take 3 found).
Proof.
  intros recs. subst recs. unfold generate_course_recommendations.
  rewrite course_fold, app_nil_l.
  assert (map cr_skill (omap (course_entry search_courses) (take 5 missing_skills))
          `sublist_of` take 5 missing_skills) as Hsub.
  { induction (take 5 missing_skills) as [|s l IH]; [done|]. simpl.
    unfold course_entry at 1.
    destruct (search_courses s) as [[|c cs]|]; simpl;
      [by apply sublist_cons | by apply sublist_skip | by apply sublist_cons]. }
  split_and!.
  - apply sublist_length in Hsub. rewrite length_map in Hsub.
    rewrite length_take in Hsub. lia.
  - done.
  - intros rec (s & _ & Hs)%list_elem_of_omap. unfold course_entry in Hs.
    destruct (search_courses s) as [[|c cs]|] eqn:E; try done.
    injection Hs as <-. simpl. exists (c :: cs). split_and!; [done | done | lia |].
    destruct cs as [|c2 [|c3 cs]]; simpl; lia.
  - intros s found Hin Hs Hne. destruct found as [|c cs]; [done|].
    exists {| cr_skill := s; cr_courses := take 3 (c :: cs) |}.
    split; [|split; reflexivity].
    apply list_elem_of_omap. exists s. split; [done|].
    unfold course_entry. by rewrite Hs.
Qed.

End RecommendationProperties.

(** ** The learning path, further *)

Section LearningPathFurther.

Import LearningPath.

Implicit Types (skills : list string).

(** X13. The learning path is a stable grouping: its skills are the input
    skills of the first category of [order] in input order, then those of
    the second, and so on; each item carries the category of its skill,
    the weeks of that category and the prerequisites listed for the
    skill. *)
Theorem learning_path_is_stable_grouping skills :
  map lp_skill (_create_learning_path skills)
  = flat_map (λ c, filter (λ s, category_of s = c) skills) order ∧
  ∀ item, item ∈ _create_learning_path skills →
    lp_skill item ∈ skills ∧
    lp_category item = category_of (lp_skill item) ∧
    estimated_weeks item = _estimate_learning_time (lp_skill item) (lp_category item) ∧
    prerequisites item = _get_prerequisites (lp_skill item) (lp_category item).
Proof.
  split; [apply create_learning_path_skills|].
  intros item Hitem.
  destruct (create_learning_path_category skills item Hitem) as [Hcat Hin].
  split_and!; [done | done | |].
  - rewrite create_learning_path_grouped, list_elem_of_In, in_flat_map in Hitem.
    destruct Hitem as (c & _ & (s & -> & _)%list_elem_of_In%list_elem_of_fmap). done.
  - rewrite create_learning_path_grouped, list_elem_of_In, in_flat_map in Hitem.
    destruct Hitem as (c & _ & (s & -> & _)%list_elem_of_In%list_elem_of_fmap). done.
Qed.

(** X14. The learning path drops and invents nothing: its skills are the
    input skills, each as often as it was given, so it has one item per
    input skill. *)
Theorem learning_path_keeps_every_skill skills :
  map lp_skill (_create_learning_path skills) ≡ₚ skills ∧
  length (_create_learning_path skills) = length skills ∧
  ∀ s, s ∈ map lp_skill (_create_learning_path skills) ↔ s ∈ skills.
Proof.
  pose proof (create_learning_path_permutation skills) as Hperm.
  split_and!; [done | |].
  - by rewrite <- (length_map lp_skill), Hperm.
  - intros s. by rewrite Hperm.
Qed.

Lemma filter_filter_category {A : Type} (f : A → string) (c c' : string) (l : list A) :
  filter (λ a, f a = c) (filter (λ a, f a = c') l)
  = if decide (c = c') then filter (λ a, f a = c) l else [].
Proof.
  destruct (decide (c = c')) as [->|Hc].
  - induction l as [|x l IH]; [done|].
    rewrite (filter_cons (λ a, f a = c') x).
    destruct (decide (f x = c')) as [Hx|Hx].
    + by rewrite filter_cons_True, IH.
    + done.
  - induction l as [|x l IH]; [done|].
    rewrite (filter_cons (λ a, f a = c') x).
    destruct (decide (f x = c')) as [Hx|Hx]; [|done].
    by rewrite filter_cons_False by congruence.
Qed.

Lemma filter_grouped {A : Type} (f : A → string) (cs : list string) (c : string)
    (l : list A) :
  NoDup cs →
  filter (λ a, f a = c) (flat_map (λ c', filter (λ a, f a = c') l) cs)
  = if decide (c ∈ cs) then filter (λ a, f a = c) l else [].
Proof.
  induction cs as [|c' cs IH]; intros Hnd; [done|].
  apply NoDup_cons in Hnd as [Hc' Hnd]. simpl.
  rewrite filter_app, filter_filter_category, IH by done.
  destruct (decide (c = c')) as [->|Hne].
  - rewrite (decide_False (P := c' ∈ cs)) by done.
    rewrite (decide_True (P := c' ∈ c' :: cs)) by left. by rewrite app_nil_r.
  - destruct (decide (c ∈ cs)) as [Hin|Hin].
    + by rewrite (decide_True (P := c ∈ c' :: cs)) by by right.
    + rewrite (decide_False (P := c ∈ c' :: cs)); [done|].
      by intros [?|?]%elem_of_cons.
Qed.

Lemma flat_map_ext_elem {A B : Type} (f g : A → list B) (l : list A) :
  (∀ a, a ∈ l → f a = g a) → flat_map f l = flat_map g l.
Proof.
  induction l as [|a l IH]; intros Hfg; [done|]. simpl.
  rewrite (Hfg a) by left. f_equal. apply IH. intros b Hb. apply Hfg. by right.
Qed.

(** X15. Ordering a path again changes nothing: the learning path of the
    skills of a learning path, in path order, is that path. *)
Theorem learning_path_idempotent skills :
  _create_learning_path (map lp_skill (_create_learning_path skills))
  = _create_learning_path skills.
Proof.
  rewrite create_learning_path_skills, !create_learning_path_grouped.
  apply flat_map_ext_elem. intros c Hc. f_equal.
  rewrite filter_grouped by apply order_NoDup.
  by rewrite decide_True.
Qed.

Lemma estimate_learning_time_values (skill category : string) :
  category ∈ order →
  _estimate_learning_time skill category ∈ [2; 4; 6; 8; 12]%Z.
Proof.
  intros Hc.
  assert (Forall (λ c, _estimate_learning_time skill c ∈ [2; 4; 6; 8; 12]%Z) order) as Hall
    by (repeat constructor; by apply (bool_decide_unpack _)).
  by apply (proj1 (Forall_forall _ _) Hall).
Qed.

(** X16. The time estimate of an item is one of 2, 4, 6, 8, 12 weeks (the
    fallback of the lookup is never needed), so a path of [n] skills takes
    between [2 n] and [12 n] weeks in total. *)
Theorem learning_path_weeks_bounded skills :
  (∀ item, item ∈ _create_learning_path skills →
     estimated_weeks item ∈ [2; 4; 6; 8; 12]%Z ∧
     is_Some (time_map !! lp_category item)) ∧
  (2 * Z.of_nat (length skills) ≤ total_weeks (_create_learning_path skills)
   ≤ 12 * Z.of_nat (length skills))%Z.
Proof.
  assert (∀ item, item ∈ _create_learning_path skills →
            estimated_weeks item ∈ [2; 4; 6; 8; 12]%Z ∧
            is_Some (time_map !! lp_category item)) as Hitems.
  { intros item Hitem.
    rewrite create_learning_path_grouped, list_elem_of_In, in_flat_map in Hitem.
    destruct Hitem as (c & Hc%list_elem_of_In
                         & (s & -> & _)%list_elem_of_In%list_elem_of_fmap).
    simpl. split; [by apply estimate_learning_time_values|].
    assert (Forall (λ c, is_Some (time_map !! c)) order) as Hall
      by (repeat constructor; by eexists).
    by apply (proj1 (Forall_forall _ _) Hall). }
  split; [done|].
  assert (length (_create_learning_path skills) = length skills) as <-.
  { by rewrite <- (length_map lp_skill), (create_learning_path_permutation skills). }
  unfold total_weeks.
  induction (_create_learning_path skills) as [|item path IH]; [simpl; lia|].
  assert (2 ≤ estimated_weeks item ≤ 12)%Z.
  { destruct (Hitems item) as [Hw _]; [left|].
    repeat (apply elem_of_cons in Hw as [->|Hw]; [lia|]). by apply elem_of_nil in Hw. }
  assert (2 * Z.of_nat (length path) ≤ foldr Z.add 0 (map estimated_weeks path)
          ≤ 12 * Z.of_nat (length path))%Z.
  { apply IH. intros i Hi. apply Hitems. by right. }
  simpl. lia.
Qed.

Lemma find_first {A : Type} (f : A → bool) (x : A) (l : list A) :
  f x = true → List.find f (x :: l) = Some x.
Proof. simpl. by intros ->. Qed.

(** X17. The one-letter keywords catch every skill with that letter: a
    skill whose name has an "r" or an "R" is of category programming on
    the learning path, with 8 weeks, and of the bucket Programming
    Languages, whatever else its name says. *)
Theorem letter_r_means_programming (skill : string) :
  PyStr.contains "r" (PyStr.lower skill) = true →
  category_of skill = "programming" ∧
  Buckets.bucket_of skill = "Programming Languages" ∧
  map (λ item, (lp_category item, estimated_weeks item)) (_create_learning_path [skill])
  = [("programming", 8%Z)].
Proof.
  intros Hr.
  assert (category_of skill = "programming") as Hcat.
  { unfold category_of, skill_categories.
    rewrite find_first; [done|]. unfold mentions.
    apply existsb_exists. exists "R". split; [|exact Hr].
    apply list_elem_of_In. by apply (bool_decide_unpack _). }
  split_and!; [done | |].
  - unfold Buckets.bucket_of, Buckets.chain.
    rewrite find_first; [done|].
    apply existsb_exists. exists "r". split; [|exact Hr].
    apply list_elem_of_In. by apply (bool_decide_unpack _).
  - rewrite create_learning_path_grouped. unfold order. simpl.
    rewrite !filter_cons, !filter_nil, Hcat. reflexivity.
Qed.

End LearningPathFurther.

(** ** Technical buckets *)

Section BucketProperties.

Import Buckets.

Lemma bucket_of_in_names (s : string) : bucket_of s ∈ names.
Proof.
  unfold bucket_of.
  destruct (find _ chain) as [entry|] eqn:E.
  - apply find_some in E as [Hin _]. apply list_elem_of_In in Hin.
    assert (Forall (λ e : string * list string, e.1 ∈ names) chain) as Hall
      by (repeat constructor; by apply (bool_decide_unpack _)).
    by apply (proj1 (Forall_forall _ _) Hall).
  - by apply (bool_decide_unpack _).
Qed.

Lemma names_NoDup : NoDup names.
Proof. by apply (bool_decide_unpack _). Qed.

(** Leaving out the empty groups keeps the names in order and the members
    as they are. *)
Lemma nonempty_groups (g : string → list string) (ns : list string) :
  let kept := filter (λ kv : string * list string, kv.2 ≠ []) (map (λ n, (n, g n)) ns) in
  map fst kept `sublist_of` ns ∧
  concat (map snd kept) = flat_map g ns ∧
  ∀ kv, kv ∈ kept ↔ kv.1 ∈ ns ∧ kv.2 = g kv.1 ∧ kv.2 ≠ [].
Proof.
  intros kept. subst kept. split_and!.
  - induction ns as [|n ns IH]; [done|]. simpl. rewrite filter_cons. simpl.
    destruct (decide (g n ≠ [])); [by apply sublist_skip | by apply sublist_cons].
  - induction ns as [|n ns IH]; [done|]. simpl. rewrite filter_cons. simpl.
    destruct (decide (g n ≠ [])) as [Hn|Hn]; simpl; rewrite IH; [done|].
    destruct (g n); [done|]. by destruct Hn.
  - intros [n members]. rewrite list_elem_of_filter, list_elem_of_fmap. simpl. split.
    + intros [Hne (n' & [= -> ->] & Hin)]. done.
    + intros (Hin & -> & Hne). split; [done|]. by exists n.
Qed.

(** X18. The buckets of [_categorize_skills] split the present and missing
    skills: the returned names are distinct names of the seven buckets in
    their fixed order; no returned bucket is empty; a bucket holds exactly
    the skills of that bucket, in the order present then missing; and
    together the buckets hold every skill as often as it was given. *)
Theorem categorize_skills_partition (present missing : list string) :
  let buckets := _categorize_skills present missing in
  map fst buckets `sublist_of` names ∧
  NoDup (map fst buckets) ∧
  (∀ name members, (name, members) ∈ buckets ↔
     name ∈ names ∧ members ≠ [] ∧
     members = filter (λ s, bucket_of s = name) (present ++ missing)) ∧
  concat (map snd buckets) ≡ₚ present ++ missing.
Proof.
  intros buckets. subst buckets. unfold _categorize_skills.
  destruct (nonempty_groups
              (λ name, filter (λ s, bucket_of s = name) (present ++ missing)) names)
    as (Hsub & Hconcat & Hmem).
  split_and!.
  - done.
  - eapply sublist_NoDup; [apply names_NoDup | exact Hsub].
  - intros name members. rewrite (Hmem (name, members)). simpl. tauto.
  - rewrite Hconcat.
    apply grouped_permutation; [apply names_NoDup | apply bucket_of_in_names].
Qed.

End BucketProperties.

(** ** The job table builder, further *)

Section BuilderProperties.

Import Preprocessor.

Implicit Types (rows : list Row) (m : gmap string JobEntry) (entry : JobEntry).

Lemma add_row_insert m (row : Row) :
  add_row m row
  = <[job_profession row := entry_add (default fresh_entry (m !! job_profession row)) row]> m.
Proof. reflexivity. Qed.

Lemma fold_add_row_lookup rows m (job : string) :
  fold_left add_row rows m !! job
  = match job_rows rows job with
    | [] => m !! job
    | rs => Some (fold_left entry_add rs (default fresh_entry (m !! job)))
    end.
Proof.
  revert m. induction rows as [|row rows IH]; intros m; [done|].
  simpl. rewrite IH, add_row_insert. unfold job_rows. rewrite filter_cons.
  destruct (decide (job_profession row = job)) as [<-|Hne].
  - rewrite lookup_insert_eq. simpl. by destruct (filter _ rows).
  - by rewrite lookup_insert_ne.
Qed.

Lemma truthy_true (t : TaskCell) : truthy t = true ↔ t ≠ Text "".
Proof.
  destruct t as [text|i]; simpl; [|split; [discriminate | done]].
  rewrite negb_true_iff, String.eqb_neq. split; [congruence|].
  intros H ->. done.
Qed.

Lemma task_in_true (t : TaskCell) (l : list TaskCell) : task_in t l = true ↔ t ∈ l.
Proof.
  unfold task_in. rewrite existsb_exists. split.
  - intros (e & He%list_elem_of_In & Hsame).
    destruct t as [s|i], e as [s'|j]; simpl in Hsame; try discriminate.
    + apply String.eqb_eq in Hsame as ->. done.
    + rewrite orb_false_r in Hsame. apply Nat.eqb_eq in Hsame as ->. done.
  - intros Ht. exists t. split; [by apply list_elem_of_In|].
    destruct t as [s|i]; simpl; [apply String.eqb_refl|].
    by rewrite Nat.eqb_refl.
Qed.

(** What a run of rows adds to an entry that has its four lists. *)
Lemma fold_entry_add (rs : list Row) (infos : list SkillInfo) (ts : list TaskCell)
    (hot ind : list string) :
  ∃ ts',
    fold_left entry_add rs
      {| skills := Some infos; tasks := Some ts;
         hot_technologies := Some hot; in_demand_skills := Some ind |}
    = {| skills := Some (infos ++ map row_info rs);
         tasks := Some ts';
         hot_technologies :=
           Some (hot ++ map row_skill (filter (λ r, hot_technology r = "Y") rs));
         in_demand_skills :=
           Some (ind ++ map row_skill (filter (λ r, in_demand r = "Y") rs)) |} ∧
    (NoDup ts → Text "" ∉ ts → NoDup ts' ∧ Text "" ∉ ts') ∧
    (∀ t, t ∈ ts' ↔ t ∈ ts ∨ (t ≠ Text "" ∧ t ∈ map row_task rs)).
Proof.
  revert infos ts hot ind. induction rs as [|r rs IH]; intros infos ts hot ind.
  - exists ts. simpl. rewrite !app_nil_r. split_and!; [done | done |].
    intros t. split; [auto|]. intros [?|[_ ?%elem_of_nil]]; done.
  - simpl. unfold entry_add at 2. simpl.
    set (ts1 := if truthy (row_task r) && negb (task_in (row_task r) ts)
                then ts ++ [row_task r] else ts).
    destruct (IH (infos ++ [row_info r]) ts1
                 (if bool_decide (hot_technology r = "Y") then hot ++ [row_skill r] else hot)
                 (if bool_decide (in_demand r = "Y") then ind ++ [row_skill r] else ind))
      as (ts' & Heq & Hnd & Hmem).
    exists ts'. split_and!.
    + unfold row_info at 1 in Heq. rewrite Heq. f_equal.
      * by rewrite <- app_assoc.
      * rewrite filter_cons.
        destruct (decide (hot_technology r = "Y")) as [Hh|Hh].
        -- rewrite (bool_decide_eq_true_2 _ Hh). simpl. by rewrite <- app_assoc.
        -- by rewrite (bool_decide_eq_false_2 _ Hh).
      * rewrite filter_cons.
        destruct (decide (in_demand r = "Y")) as [Hd|Hd].
        -- rewrite (bool_decide_eq_true_2 _ Hd). simpl. by rewrite <- app_assoc.
        -- by rewrite (bool_decide_eq_false_2 _ Hd).
    + intros Hts Hempty. apply Hnd; subst ts1.
      * destruct (truthy (row_task r)) eqn:Ee; simpl; [|done].
        destruct (task_in (row_task r) ts) eqn:Ep; simpl; [done|].
        apply NoDup_app. split_and!; [done | | apply NoDup_singleton].
        intros t Ht ->%list_elem_of_singleton.
        apply task_in_true in Ht. congruence.
      * destruct (truthy (row_task r)) eqn:Ee; simpl; [|done].
        destruct (task_in (row_task r) ts) eqn:Ep; simpl; [done|].
        apply truthy_true in Ee.
        intros [?|?%list_elem_of_singleton]%elem_of_app; [done|congruence].
    + intros t. rewrite Hmem. subst ts1. simpl. rewrite elem_of_cons.
      destruct (truthy (row_task r)) eqn:Ee; simpl.
      * apply truthy_true in Ee.
        destruct (task_in (row_task r) ts) eqn:Ep; simpl.
        -- apply task_in_true in Ep. split; [tauto|].
           intros [?|[Hne [->|?]]]; tauto.
        -- rewrite elem_of_app, list_elem_of_singleton. split; [|tauto].
           intros [[? | ->] | ?]; tauto.
      * assert (row_task r = Text "") as Hblank.
        { destruct (decide (row_task r = Text "")) as [?|Hne]; [done|].
          apply truthy_true in Hne. congruence. }
        split; [tauto|].
        intros [?|[Hne [->|?]]]; [tauto | congruence | tauto].
Qed.

Lemma built_entry rows (job : string) :
  create_job_skill_mapping rows !! job
  = match job_rows rows job with
    | [] => None
    | rs => Some (fold_left entry_add rs fresh_entry)
    end.
Proof.
  unfold create_job_skill_mapping. rewrite fold_add_row_lookup, lookup_empty. done.
Qed.

(** X19. The table has an entry for exactly the jobs that have a row. The
    entry of a job lists one skill entry per row of the job, in table
    order and with repetitions, with the flags of the row; its
    hot-technology and in-demand lists are the skills of the rows marked
    "Y" in that column. *)
Theorem job_table_lists_job_rows rows (job : string) :
  match create_job_skill_mapping rows !! job with
  | None => job_rows rows job = []
  | Some entry =>
      job_rows rows job ≠ [] ∧
      skills entry = Some (map row_info (job_rows rows job)) ∧
      hot_technologies entry
      = Some (map row_skill (filter (λ r, hot_technology r = "Y") (job_rows rows job))) ∧
      in_demand_skills entry
      = Some (map row_skill (filter (λ r, in_demand r = "Y") (job_rows rows job)))
  end.
Proof.
  rewrite built_entry.
  destruct (job_rows rows job) as [|r rs] eqn:E; [done|]. rewrite <- E.
  destruct (fold_entry_add (job_rows rows job) [] [] [] []) as (ts & Heq & _).
  unfold fresh_entry. rewrite Heq. simpl. split_and!; [|done..].
  by rewrite E.
Qed.

(** X20. The task list of a job in the table lists no task twice and
    never the empty text (the value of a row of a table without task
    column); it holds exactly the other task cells of the rows of the job.
    A blank cell, which pandas reads as NaN, is one of them: NaN is true
    and equal to nothing, so it is listed, once per NaN object. *)
Theorem job_tasks_are_distinct rows (job : string) (entry : JobEntry) :
  create_job_skill_mapping rows !! job = Some entry →
  ∃ ts,
    tasks entry = Some ts ∧
    NoDup ts ∧
    (Text "" ∉ ts) ∧
    (∀ t, t ∈ ts ↔ t ≠ Text "" ∧ t ∈ map row_task (job_rows rows job)) ∧
    (∀ object, NaN object ∈ map row_task (job_rows rows job) → NaN object ∈ ts).
Proof.
  rewrite built_entry.
  destruct (job_rows rows job) as [|r rs] eqn:E; [done|]. rewrite <- E.
  destruct (fold_entry_add (job_rows rows job) [] [] [] []) as (ts & Heq & Hnd & Hmem).
  unfold fresh_entry. rewrite Heq. intros [= <-]. simpl.
  exists ts. destruct Hnd as [Hnd Hempty]; [constructor | by intros ?%elem_of_nil |].
  assert (∀ t, t ∈ ts ↔ t ≠ Text "" ∧ t ∈ map row_task (job_rows rows job)) as Hts.
  { intros t. rewrite Hmem. split; [|tauto]. by intros [?%elem_of_nil|?]. }
  split_and!; [done.. | exact Hts |].
  intros object Hcell. apply Hts. split; [discriminate | exact Hcell].
Qed.

(** X21. Builder and analyzer together: over a table written by the
    builder, the required skills of a job are the skills of its rows, one
    per row, so a returned analysis counts as many required skills as the
    job has rows (none for a job without rows). *)
Theorem analysis_counts_table_rows {Embedding : Type}
    (encode : string → Embedding) (cosine : Embedding → Embedding → Q)
    (fuzz_ratio : string → string → Z) (self : SkillGapAnalyzer Embedding)
    (rows : list Row) (resume_skills : list string) (job : string) (r : Analysis) :
  job_skill_mapping self = create_job_skill_mapping rows →
  analyze_skill_gap encode cosine fuzz_ratio self resume_skills job = Ok r →
  required_skills self job = map row_skill (job_rows rows job) ∧
  total_required_skills r = length (job_rows rows job) ∧
  (skills_present r + length (missing_skills r) = length (job_rows rows job))%nat.
Proof.
  intros Htable Hrun.
  assert (required_skills self job = map row_skill (job_rows rows job)) as Hreq.
  { unfold required_skills, job_entries, get_job_required_skills.
    rewrite Htable, built_entry.
    destruct (job_rows rows job) as [|row rs] eqn:E; [done|]. rewrite <- E.
    destruct (fold_entry_add (job_rows rows job) [] [] [] []) as (ts & Heq & _).
    unfold fresh_entry. rewrite Heq. simpl. by rewrite map_map. }
  apply analyze_skill_gap_inv in Hrun as (matched & _ & ->). simpl.
  fold (job_entries self job). fold (required_skills self job).
  rewrite Hreq, length_map. split_and!; [done | done |].
  pose proof (length_filter_bool (λ s, py_in s (map matched_skill matched))
                (map row_skill (job_rows rows job))) as Hsum.
  by rewrite length_map in Hsum.
Qed.

End BuilderProperties.

(** ** Skill extraction helpers *)

Section TextSkillsProperties.

Import TextSkills.

(** X22. The word groups are exactly the runs of one to five consecutive
    words that are no longer than [max_length]: every group is such a run,
    and every such run is a group. There is none when [max_length] is
    below 1 or there is no word. *)
Theorem word_groups_are_runs (words : list string) (max_length : Z) (g : list string) :
  g ∈ _get_word_groups words max_length ↔
  g ≠ [] ∧ (Z.of_nat (length g) ≤ max_length)%Z ∧ (length g ≤ 5)%nat ∧ run_of g words.
Proof.
  unfold _get_word_groups. rewrite list_elem_of_In, in_flat_map. split.
  - intros (n & Hn%in_seq & (i & -> & Hi%list_elem_of_In%in_seq)%list_elem_of_In%list_elem_of_fmap).
    assert (length (take n (drop i words)) = n) as Hlen
      by (rewrite length_take, length_drop; lia).
    split_and!.
    + intros Hnil. rewrite Hnil in Hlen. simpl in Hlen. lia.
    + lia.
    + lia.
    + exists (take i words), (drop n (drop i words)).
      by rewrite take_drop, take_drop.
  - intros (Hne & Hmax & Hfive & pre & post & ->).
    assert (length g ≠ 0)%nat by (by destruct g).
    exists (length g). split.
    + apply in_seq. lia.
    + apply list_elem_of_In, list_elem_of_fmap. exists (length pre). split.
      * by rewrite drop_app_length, take_app_length.
      * apply list_elem_of_In, in_seq. rewrite !length_app. lia.
Qed.

Lemma all_pairs_app {A : Type} (R : A → A → Prop) (l1 l2 : list A) :
  all_pairs R (l1 ++ l2) ↔
  all_pairs R l1 ∧ all_pairs R l2 ∧ ∀ a b, a ∈ l1 → b ∈ l2 → R a b.
Proof.
  induction l1 as [|x l1 IH]; simpl.
  - split; [|tauto]. intros H. split_and!; [done | done |].
    by intros a b ?%elem_of_nil.
  - rewrite IH, Forall_app, !Forall_forall. split.
    + intros [[H1 H2] (H3 & H4 & H5)]. split_and!; [done..|].
      intros a b [->|Ha]%elem_of_cons Hb; [by apply H2 | by apply H5].
    + intros ([H1 H3] & H4 & H5). split_and!; [done | | done | done |].
      * intros b Hb. apply H5; [left | done].
      * intros a b Ha Hb. apply H5; [by right | done].
Qed.

Lemma all_pairs_sublist {A : Type} (R : A → A → Prop) (l1 l2 : list A) :
  l1 `sublist_of` l2 → all_pairs R l2 → all_pairs R l1.
Proof.
  induction 1 as [|x l1 l2 Hsub IH|x l1 l2 Hsub IH]; simpl; [done | |].
  - intros [Hx Hrest]. split; [|by apply IH].
    apply Forall_forall. intros b Hb.
    apply (proj1 (Forall_forall _ _) Hx). by apply (sublist_subseteq _ _ Hsub).
  - intros [_ Hrest]. by apply IH.
Qed.

Lemma all_pairs_and {A : Type} (R S : A → A → Prop) (l : list A) :
  all_pairs R l → all_pairs S l → all_pairs (λ a b, R a b ∧ S a b) l.
Proof.
  induction l as [|x l IH]; simpl; [done|].
  intros [HR HRl] [HS HSl]. split; [|by apply IH].
  rewrite Forall_forall in *. intros b Hb. split; [by apply HR | by apply HS].
Qed.

Lemma overlaps_sym (a b : ExtractedSkill) : overlaps a b = overlaps b a.
Proof.
  unfold overlaps.
  destruct (Z.ltb_spec (es_start a) (es_end b)), (Z.gtb_spec (es_end a) (es_start b)),
    (Z.ltb_spec (es_start b) (es_end a)), (Z.gtb_spec (es_end b) (es_start a));
    simpl; try done; lia.
Qed.

(** Later confidences are no higher than earlier ones. *)
Local Abbreviation descending :=
  (all_pairs (λ a b : ExtractedSkill, (es_confidence b <= es_confidence a)%Q)).

Lemma insert_by_confidence_perm (x : ExtractedSkill) (l : list ExtractedSkill) :
  insert_by_confidence x l ≡ₚ x :: l.
Proof.
  induction l as [|y l IH]; simpl; [done|].
  destruct (Qle_bool _ _); [done|]. rewrite IH. apply Permutation_swap.
Qed.

Lemma sorted_by_confidence_perm (l : list ExtractedSkill) : sorted_by_confidence l ≡ₚ l.
Proof.
  induction l as [|x l IH]; simpl; [done|].
  by rewrite insert_by_confidence_perm, IH.
Qed.

Lemma insert_by_confidence_descending (x : ExtractedSkill) (l : list ExtractedSkill) :
  descending l → descending (insert_by_confidence x l).
Proof.
  induction l as [|y l IH]; simpl; [done|]. intros [Hy Hl].
  destruct (Qle_bool (es_confidence y) (es_confidence x)) eqn:Hc; simpl.
  - apply Qle_bool_iff in Hc. split_and!; [|done..].
    constructor; [done|]. eapply Forall_impl; [exact Hy|].
    intros b Hb. simpl in Hb. eapply Qle_trans; eauto.
  - apply Qle_bool_false in Hc. split; [|by apply IH].
    rewrite insert_by_confidence_perm. constructor; [by apply Qlt_le_weak | done].
Qed.

Lemma sorted_by_confidence_descending (l : list ExtractedSkill) :
  descending (sorted_by_confidence l).
Proof.
  induction l as [|x l IH]; simpl; [done|]. by apply insert_by_confidence_descending.
Qed.

(** No later element overlaps an earlier one. *)
Local Abbreviation apart :=
  (all_pairs (λ a b : ExtractedSkill, overlaps b a = false)).

Lemma existsb_false {A : Type} (f : A → bool) (l : list A) :
  existsb f l = false → ∀ a, a ∈ l → f a = false.
Proof.
  induction l as [|x l IH]; simpl; [by intros _ a ?%elem_of_nil|].
  intros [Hx Hl]%orb_false_iff a [->|Ha]%elem_of_cons; [done | by apply IH].
Qed.

Lemma existsb_true {A : Type} (f : A → bool) (l : list A) :
  existsb f l = true → ∃ a, a ∈ l ∧ f a = true.
Proof.
  intros (a & Ha & Hf)%existsb_exists. exists a. by rewrite list_elem_of_In.
Qed.

(** The filtering loop on a list of descending confidence, from accepted
    skills that are apart. *)
Lemma keep_fold (l acc : list ExtractedSkill) :
  descending l → apart acc →
  ∃ kept,
    fold_left keep_step l acc = acc ++ kept ∧
    kept `sublist_of` l ∧
    apart (acc ++ kept) ∧
    ∀ x, x ∈ l →
      x ∈ kept ∨
      ∃ a, a ∈ acc ++ kept ∧ overlaps x a = true ∧
           (a ∈ acc ∨ (es_confidence x <= es_confidence a)%Q).
Proof.
  revert acc. induction l as [|y l IH]; intros acc Hdesc Hacc.
  - exists []. rewrite app_nil_r. split_and!; [done..|]. by intros x ?%elem_of_nil.
  - destruct Hdesc as [Hy Hdesc]. simpl. unfold keep_step at 2.
    destruct (existsb (overlaps y) acc) eqn:Hex.
    + destruct (IH acc Hdesc Hacc) as (kept & Heq & Hsub & Hapart & Hcover).
      exists kept. split_and!; [done | by apply sublist_cons | done |].
      intros x [->|Hx]%elem_of_cons.
      * right. apply existsb_true in Hex as (a & Ha & Hov).
        exists a. split_and!; [apply elem_of_app; by left | done | by left].
      * by apply Hcover.
    + assert (apart (acc ++ [y])) as Hacc'.
      { apply all_pairs_app. split_and!; [done | by split |].
        intros a b Ha ->%list_elem_of_singleton. by apply (existsb_false _ _ Hex). }
      destruct (IH (acc ++ [y]) Hdesc Hacc') as (kept & Heq & Hsub & Hapart & Hcover).
      exists (y :: kept). rewrite <- app_assoc in Heq, Hapart, Hcover. simpl in *.
      split_and!; [done | by apply sublist_skip | done |].
      intros x [->|Hx]%elem_of_cons; [left; left|].
      destruct (Hcover x Hx) as [Hk|(a & Ha & Hov & Hfrom)].
      * left. by right.
      * right. exists a. split_and!; [done | done |].
        destruct Hfrom as [[Hin | Hin%list_elem_of_singleton]%elem_of_app | Hle];
          [by left | subst a; right | by right].
        by apply (proj1 (Forall_forall _ _) Hy).
Qed.

(** X23. Removing overlaps keeps a selection in descending confidence: the
    result is a sublist of the input sorted by descending confidence;
    no two kept matches overlap; and every input match is kept or
    overlaps a kept match whose confidence is at least its own. *)
Theorem remove_overlapping_keeps_best (skills : list ExtractedSkill) :
  let kept := _remove_overlapping_skills skills in
  kept `sublist_of` sorted_by_confidence skills ∧
  (∀ a, a ∈ kept → a ∈ skills) ∧
  all_pairs (λ a b, overlaps a b = false ∧ overlaps b a = false ∧
                    (es_confidence b <= es_confidence a)%Q) kept ∧
  (∀ s, s ∈ skills →
        s ∈ kept ∨
        ∃ a, a ∈ kept ∧ overlaps s a = true ∧ (es_confidence s <= es_confidence a)%Q).
Proof.
  intros kept. subst kept. unfold _remove_overlapping_skills.
  destruct skills as [|s0 l] eqn:E.
  { split_and!; [done.. |]. by intros s ?%elem_of_nil. }
  rewrite <- E. clear E s0 l.
  destruct (keep_fold (sorted_by_confidence skills) [])
    as (kept & -> & Hsub & Hapart & Hcover);
    [apply sorted_by_confidence_descending | done |].
  simpl in *. split_and!.
  - done.
  - intros a Ha. rewrite <- (sorted_by_confidence_perm skills).
    by apply (sublist_subseteq _ _ Hsub).
  - apply all_pairs_and; [|apply all_pairs_and]; [| done |].
    + clear -Hapart. induction kept as [|x l IH]; simpl in *; [done|].
      destruct Hapart as [Hx Hl]. split; [|by apply IH].
      eapply Forall_impl; [exact Hx|]. intros b Hb. simpl in *.
      by rewrite overlaps_sym.
    + eapply all_pairs_sublist; [exact Hsub | apply sorted_by_confidence_descending].
  - intros s Hs. rewrite <- (sorted_by_confidence_perm skills) in Hs.
    destruct (Hcover s Hs) as [?|(a & Ha & Hov & [?%elem_of_nil|Hc])]; [by left|done|].
    right. by exists a.
Qed.

End TextSkillsProperties.

(** ** The fallback analysis *)

Section BasicProperties.

Import Basic.

Implicit Types (resume_skills more : list string) (data : option (list RequiredSkill)).

Lemma append_nil_r (s : string) : (s +:+ "")%string = s.
Proof. induction s as [|c s IH]; [done|]. by rewrite append_cons, IH. Qed.

Lemma contains_refl (s : string) : PyStr.contains s s = true.
Proof. apply contains_app. exists "", "". by rewrite append_nil_l, append_nil_r. Qed.

Lemma in_resume_true resume_skills (s : string) :
  in_resume resume_skills s = true
  ↔ ∃ resume_skill, resume_skill ∈ resume_skills
      ∧ PyStr.contains (PyStr.lower s) (PyStr.lower resume_skill) = true.
Proof.
  unfold in_resume. rewrite existsb_exists.
  split; intros (x & Hx & Hc); exists x; split; try done; by apply list_elem_of_In.
Qed.

Lemma in_resume_false resume_skills (s : string) :
  in_resume resume_skills s = false
  ↔ ∀ resume_skill, resume_skill ∈ resume_skills
      → PyStr.contains (PyStr.lower s) (PyStr.lower resume_skill) = false.
Proof.
  rewrite <- not_true_iff_false, in_resume_true. split.
  - intros H x Hx. apply not_true_iff_false. intros Hc. apply H. by exists x.
  - intros H (x & Hx & Hc). rewrite (H x Hx) in Hc. done.
Qed.

Lemma filter_sublist_mono {A : Type} (f g : A → bool) (l : list A) :
  (∀ x, f x = true → g x = true) →
  filter (λ x, f x = true) l `sublist_of` filter (λ x, g x = true) l.
Proof.
  intros Hfg. induction l as [|x l IH]; [done|].
  rewrite !filter_cons. destruct (f x) eqn:Hf.
  - rewrite (Hfg x Hf). simpl. by apply sublist_skip.
  - destruct (g x); simpl; [by apply sublist_cons | done].
Qed.

Lemma filter_bool_permutation {A : Type} (f : A → bool) (l : list A) :
  filter (λ x, f x = true) l ++ filter (λ x, f x = false) l ≡ₚ l.
Proof.
  induction l as [|x l IH]; [done|].
  rewrite !filter_cons. destruct (f x); simpl.
  - by rewrite IH.
  - rewrite <- Permutation_middle. by rewrite IH.
Qed.

Lemma filter_ext_elem {A : Type} (P Q : A → Prop)
    `{!∀ x, Decision (P x)} `{!∀ x, Decision (Q x)} (l : list A) :
  (∀ x, x ∈ l → P x ↔ Q x) → filter P l = filter Q l.
Proof.
  induction l as [|x l IH]; intros Hext; [done|].
  rewrite !filter_cons.
  rewrite IH by (intros y Hy; apply Hext; by right).
  pose proof (Hext x (list_elem_of_here _ _)) as Hx.
  destruct (decide (P x)) as [HP|HP], (decide (Q x)) as [HQ|HQ]; tauto || done.
Qed.

Lemma filter_map_name (f : string → bool) (b : bool) (rows : list RequiredSkill) :
  filter (λ s, f s = b) (map rs_name rows)
  = map rs_name (filter (λ d, f (rs_name d) = b) rows).
Proof.
  induction rows as [|d rows IH]; [done|].
  simpl. rewrite !filter_cons. destruct (decide (f (rs_name d) = b)); simpl; by rewrite IH.
Qed.

Lemma score_mono (p p' t : nat) : (p ≤ p')%nat → (score p t <= score p' t)%Q.
Proof.
  intros Hp. unfold score.
  destruct (Nat.max t 1) as [|d] eqn:Hd; [lia|].
  unfold Qle, Qdiv, Qmult, Qinv, inject_Z. simpl. nia.
Qed.

(** The importance loop is three filters of the rows. *)
Lemma importance_fold (missing : list string) (rows : list RequiredSkill)
    (c i n : list string) :
  fold_left (importance_step missing) rows (c, i, n)
  = (c ++ map rs_name (filter (λ d, py_in (rs_name d) missing = true ∧ level_tier d = Critical) rows),
     i ++ map rs_name (filter (λ d, py_in (rs_name d) missing = true ∧ level_tier d = Important) rows),
     n ++ map rs_name (filter (λ d, py_in (rs_name d) missing = true ∧ level_tier d = NiceToHave) rows)).
Proof.
  revert c i n. induction rows as [|d rows IH]; intros c i n.
  - simpl. by rewrite !app_nil_r.
  - simpl. rewrite !filter_cons.
    assert (level_tier d
            = if decide (importance d = Some "Critical") then Critical
              else if decide (importance d = Some "Important") then Important
              else NiceToHave) as Ht by reflexivity.
    destruct (py_in (rs_name d) missing) eqn:Hin;
      [destruct (decide (importance d = Some "Critical"));
         [|destruct (decide (importance d = Some "Important"))]|];
      rewrite IH;
      repeat match goal with
             | |- context [decide (?P ∧ level_tier d = ?t)] =>
                 destruct (decide (P ∧ level_tier d = t)) as [[? ?]|?]
             end;
      try congruence; try (exfalso; intuition congruence);
      simpl; by rewrite <- ?app_assoc.
Qed.

Lemma filter_and {A : Type} (P Q : A → Prop)
    `{!∀ x, Decision (P x)} `{!∀ x, Decision (Q x)} (l : list A) :
  filter (λ x, P x ∧ Q x) l = filter Q (filter P l).
Proof.
  induction l as [|x l IH]; [done|].
  rewrite !filter_cons.
  destruct (decide (P x)) as [HP|HP].
  - rewrite filter_cons. destruct (decide (Q x)).
    + rewrite decide_True by done. by rewrite IH.
    + rewrite decide_False by (intros [_ ?]; done). done.
  - rewrite decide_False by (intros [? _]; done). done.
Qed.

(** The three lists of the importance loop, by the rows that are missing. *)
Lemma importance_lists resume_skills (rows : list RequiredSkill) (t : Tier) :
  let missing := filter (λ s, in_resume resume_skills s = false) (map rs_name rows) in
  filter (λ d, py_in (rs_name d) missing = true ∧ level_tier d = t) rows
  = filter (λ d, level_tier d = t)
      (filter (λ d, in_resume resume_skills (rs_name d) = false) rows).
Proof.
  intros missing. rewrite filter_and. f_equal.
  apply filter_ext_elem. intros d Hd.
  unfold missing. rewrite py_in_true, list_elem_of_filter, list_elem_of_fmap.
  split; [tauto|]. intros H. split; [done|]. by exists d.
Qed.

(** X24. In the fallback analysis a required skill is present exactly when
    its lower-cased name occurs inside some lower-cased resume skill, in
    particular when the resume lists it up to case; present and missing
    skills are complementary sublists of the required names, the counts add
    up and the score lies between 0 and 100. Without rows from the data
    base every list is empty and the score is 0. *)
Theorem basic_analysis_partition resume_skills data (job_name : string) :
  let r := perform_basic_analysis resume_skills data job_name in
  let required := map rs_name (default [] data) in
  (∀ s, s ∈ b_present_skills r
        ↔ s ∈ required
          ∧ ∃ resume_skill, resume_skill ∈ resume_skills
              ∧ PyStr.contains (PyStr.lower s) (PyStr.lower resume_skill) = true) ∧
  (∀ s resume_skill, s ∈ required → resume_skill ∈ resume_skills →
        PyStr.lower resume_skill = PyStr.lower s → s ∈ b_present_skills r) ∧
  (∀ s, s ∈ b_missing_skills r ↔ s ∈ required ∧ s ∉ b_present_skills r) ∧
  b_present_skills r `sublist_of` required ∧
  b_missing_skills r `sublist_of` required ∧
  b_present_skills r ++ b_missing_skills r ≡ₚ required ∧
  (b_skills_present r + length (b_missing_skills r))%nat = b_total_required_skills r ∧
  (0 <= b_proficiency_score r <= 100)%Q ∧
  (default [] data = [] →
     b_present_skills r = [] ∧ b_missing_skills r = [] ∧ b_recommendations r = []
     ∧ b_learning_path r = [] ∧ (b_proficiency_score r == 0)%Q).
Proof.
  intros r required.
  assert (∀ s, s ∈ b_present_skills r
        ↔ s ∈ required
          ∧ ∃ resume_skill, resume_skill ∈ resume_skills
              ∧ PyStr.contains (PyStr.lower s) (PyStr.lower resume_skill) = true) as Hpresent.
  { intros s. unfold r, perform_basic_analysis. simpl.
    rewrite list_elem_of_filter, in_resume_true. fold required. tauto. }
  split; [exact Hpresent|].
  split.
  { intros s x Hs Hx Hlow. apply Hpresent. split; [done|].
    exists x. split; [done|]. rewrite Hlow. apply contains_refl. }
  split.
  { intros s. rewrite Hpresent. unfold r, perform_basic_analysis. simpl.
    rewrite list_elem_of_filter. fold required. rewrite <- in_resume_true.
    destruct (in_resume resume_skills s); intuition congruence. }
  split; [apply sublist_filter|].
  split; [apply sublist_filter|].
  split.
  { unfold r, perform_basic_analysis. simpl. apply filter_bool_permutation. }
  split.
  { unfold r, perform_basic_analysis. simpl. apply length_filter_bool. }
  split.
  { unfold r, perform_basic_analysis. simpl. apply score_bounds.
    apply sublist_length, sublist_filter. }
  intros Hempty. unfold r, perform_basic_analysis. rewrite Hempty. simpl.
  repeat split; done.
Qed.

(** X25. Listing more skills on the resume never lowers the result of the
    fallback analysis: the present skills grow, the missing skills shrink
    (as sublists) and the score does not decrease. *)
Theorem basic_more_resume_skills resume_skills more data (job_name : string) :
  let r := perform_basic_analysis resume_skills data job_name in
  let r' := perform_basic_analysis (resume_skills ++ more) data job_name in
  b_present_skills r `sublist_of` b_present_skills r' ∧
  b_missing_skills r' `sublist_of` b_missing_skills r ∧
  b_total_required_skills r' = b_total_required_skills r ∧
  (b_proficiency_score r <= b_proficiency_score r')%Q.
Proof.
  intros r r'.
  assert (∀ s, in_resume resume_skills s = true
               → in_resume (resume_skills ++ more) s = true) as Hmono.
  { intros s. unfold in_resume. rewrite existsb_app. by intros ->. }
  assert (b_present_skills r `sublist_of` b_present_skills r') as Hsub.
  { unfold r, r', perform_basic_analysis. simpl. by apply filter_sublist_mono. }
  split; [exact Hsub|].
  split.
  { unfold r, r', perform_basic_analysis. simpl.
    set (l := map rs_name (default [] data)).
    induction l as [|x l IH]; [done|].
    rewrite !filter_cons.
    destruct (in_resume resume_skills x) eqn:Hx.
    - rewrite (Hmono x Hx). simpl. done.
    - destruct (in_resume (resume_skills ++ more) x); simpl;
        [by apply sublist_cons | by apply sublist_skip]. }
  split; [done|].
  unfold r, r', perform_basic_analysis. simpl. apply score_mono.
  apply sublist_length. exact Hsub.
Qed.

(** X26. The fallback analysis sorts the missing rows by their
    [importance_level]: "Critical" rows are critical, "Important" rows and
    rows without the field are important, every other row (a null field,
    any other text) is nice to have. Each list keeps the order and the
    repetitions of the rows, and the three lists together are a
    permutation of the missing skills. *)
Theorem basic_missing_by_importance resume_skills data (job_name : string) :
  let r := perform_basic_analysis resume_skills data job_name in
  let missing_rows :=
    filter (λ d, in_resume resume_skills (rs_name d) = false) (default [] data) in
  b_missing_skills r = map rs_name missing_rows ∧
  b_critical_missing r
    = map rs_name (filter (λ d, rs_importance_level d = Level "Critical") missing_rows) ∧
  b_important_missing r
    = map rs_name (filter (λ d, rs_importance_level d = Level "Important"
                                ∨ rs_importance_level d = Absent) missing_rows) ∧
  b_nice_to_have_missing r
    = map rs_name (filter (λ d, rs_importance_level d ≠ Level "Critical"
                                ∧ rs_importance_level d ≠ Level "Important"
                                ∧ rs_importance_level d ≠ Absent) missing_rows) ∧
  b_critical_missing r ++ b_important_missing r ++ b_nice_to_have_missing r
    ≡ₚ b_missing_skills r.
Proof.
  intros r missing_rows.
  assert (b_missing_skills r = map rs_name missing_rows) as Hmissing.
  { unfold r, perform_basic_analysis. simpl. apply filter_map_name. }
  assert (b_critical_missing r
          = map rs_name (filter (λ d, level_tier d = Critical) missing_rows)) as Hc.
  { unfold r, perform_basic_analysis. simpl.
    rewrite importance_fold. simpl. by rewrite importance_lists. }
  assert (b_important_missing r
          = map rs_name (filter (λ d, level_tier d = Important) missing_rows)) as Hi.
  { unfold r, perform_basic_analysis. simpl.
    rewrite importance_fold. simpl. by rewrite importance_lists. }
  assert (b_nice_to_have_missing r
          = map rs_name (filter (λ d, level_tier d = NiceToHave) missing_rows)) as Hn.
  { unfold r, perform_basic_analysis. simpl.
    rewrite importance_fold. simpl. by rewrite importance_lists. }
  split; [exact Hmissing|].
  split.
  { rewrite Hc. f_equal. apply list_filter_iff. intros d.
    unfold level_tier, importance.
    destruct (rs_importance_level d) as [| |text];
      repeat (destruct (decide _)); split; intros; congruence. }
  split.
  { rewrite Hi. f_equal. apply list_filter_iff. intros d.
    unfold level_tier, importance.
    destruct (rs_importance_level d) as [| |text];
      repeat (destruct (decide _)); split; intros; try intuition congruence. }
  split.
  { rewrite Hn. f_equal. apply list_filter_iff. intros d.
    unfold level_tier, importance.
    destruct (rs_importance_level d) as [| |text];
      repeat (destruct (decide _)); split; intros; try intuition congruence. }
  rewrite Hc, Hi, Hn, Hmissing, <- !map_app.
  apply fmap_Permutation, three_way_split.
Qed.

(** X27. What the fallback analysis recommends: every critical missing
    skill, then at most five important ones, each with the label of its
    list; the learning path holds the critical skills and the first three
    important ones in that order (no regrouping), without prerequisites.
    A skill that is only nice to have is never recommended. *)
Theorem basic_recommendations_shape resume_skills data (job_name : string) :
  let r := perform_basic_analysis resume_skills data job_name in
  map pr_skill (b_recommendations r)
    = b_critical_missing r ++ take 5 (b_important_missing r) ∧
  map priority (b_recommendations r)
    = replicate (length (b_critical_missing r)) "Critical"
      ++ replicate (Nat.min 5 (length (b_important_missing r))) "Important" ∧
  (length (b_recommendations r) ≤ length (b_critical_missing r) + 5)%nat ∧
  map lp_skill (b_learning_path r)
    = b_critical_missing r ++ take 3 (b_important_missing r) ∧
  Forall (λ item, prerequisites item = []) (b_learning_path r) ∧
  (∀ s, s ∈ map pr_skill (b_recommendations r) ∨ s ∈ map lp_skill (b_learning_path r) →
        s ∈ b_critical_missing r ∨ s ∈ b_important_missing r).
Proof.
  intros r.
  set (c := b_critical_missing r). set (i := b_important_missing r).
  assert (b_recommendations r
          = priority_items "Critical" "Essential skill for this role" c
            ++ priority_items "Important" "Important skill for career growth" (take 5 i))
    as Hrec by reflexivity.
  assert (b_learning_path r = create_basic_learning_path (c ++ take 3 i))
    as Hpath by reflexivity.
  assert (∀ label why l, map pr_skill (priority_items label why l) = l) as Hskill.
  { intros label why l. unfold priority_items. rewrite map_map. simpl. apply map_id. }
  assert (∀ label why l,
            map priority (priority_items label why l) = replicate (length l) label) as Hlabel.
  { intros label why l. unfold priority_items. rewrite map_map. simpl.
    induction l as [|x l IH]; [done|]. simpl. by rewrite IH. }
  assert (map lp_skill (b_learning_path r) = c ++ take 3 i) as Hlp.
  { rewrite Hpath. unfold create_basic_learning_path. rewrite map_map. simpl. apply map_id. }
  assert (map pr_skill (b_recommendations r) = c ++ take 5 i) as Hps.
  { by rewrite Hrec, map_app, !Hskill. }
  split; [exact Hps|].
  split.
  { rewrite Hrec, map_app, !Hlabel, length_take. done. }
  split.
  { rewrite <- (length_map pr_skill), Hps, length_app, length_take. lia. }
  split; [exact Hlp|].
  split.
  { rewrite Hpath. unfold create_basic_learning_path. apply Forall_forall.
    intros item Hitem. apply list_elem_of_fmap in Hitem as (s & -> & _). done. }
  intros s. rewrite Hps, Hlp, !elem_of_app.
  intros [[?|Hs]|[?|Hs]]; auto; right; eapply subseteq_take; exact Hs.
Qed.

Lemma has_keyword_cons (keyword : string) (keywords : list string) (s : string) :
  has_keyword (keyword :: keywords) s = PyStr.contains keyword s || has_keyword keywords s.
Proof. reflexivity. Qed.

Lemma has_keyword_nil (s : string) : has_keyword [] s = false.
Proof. reflexivity. Qed.

Local Ltac table_case :=
  repeat split; intros;
  first [ done
        | solve [repeat first [apply list_elem_of_here | apply list_elem_of_further]]
        | intuition discriminate ].

(** X28. The two tables of the fallback learning path agree: the estimate
    is always 4, 6, 8 or 12 weeks; a skill is a programming language
    exactly when its estimate is 8 weeks (javascript contains java); 12
    weeks are given to data-science skills only; a data-base skill takes 4
    weeks (mysql contains sql), a cloud or other skill 6. *)
Theorem basic_category_and_weeks_agree (skill : string) :
  let category := categorize_skill_basic skill in
  let weeks := estimate_learning_time_basic skill in
  weeks ∈ [4; 6; 8; 12]%Z ∧
  (category = "Programming Languages" ↔ weeks = 8%Z) ∧
  (weeks = 12%Z → category = "Data Science") ∧
  (category = "Database" → weeks = 4%Z) ∧
  (category = "Cloud Computing" ∨ category = "Other" → weeks = 6%Z) ∧
  category ∈ ["Programming Languages"; "Data Science"; "Database"; "Cloud Computing"; "Other"].
Proof.
  intros category weeks. unfold category, weeks.
  unfold categorize_skill_basic, estimate_learning_time_basic.
  set (sl := PyStr.lower skill).
  rewrite !has_keyword_cons, !has_keyword_nil, !orb_false_r.
  assert (PyStr.contains "javascript" sl = true → PyStr.contains "java" sl = true) as Hjava.
  { apply contains_trans. reflexivity. }
  assert (PyStr.contains "mysql" sl = true → PyStr.contains "sql" sl = true) as Hsql.
  { apply contains_trans. reflexivity. }
  destruct (PyStr.contains "javascript" sl);
    [rewrite Hjava by done|clear Hjava];
    (destruct (PyStr.contains "mysql" sl); [rewrite Hsql by done|clear Hsql]);
    destruct (PyStr.contains "python" sl), (PyStr.contains "java" sl),
      (PyStr.contains "programming" sl); simpl;
    try table_case;
    destruct (PyStr.contains "machine learning" sl), (PyStr.contains "ai" sl),
      (PyStr.contains "data science" sl); simpl;
    try table_case;
    destruct (PyStr.contains "sql" sl), (PyStr.contains "database" sl); simpl;
    try table_case;
    destruct (PyStr.contains "cloud" sl
              || (PyStr.contains "aws" sl || PyStr.contains "azure" sl)); simpl;
    table_case.
Qed.

End BasicProperties.

(** ** The further properties at the concrete inputs *)

Section FurtherWitnesses.

Local Abbreviation run_match := (extract_and_match_skills
  Sample.encode Sample.cosine Sample.fuzz_ratio).
Local Abbreviation run_analysis := (analyze_skill_gap
  Sample.encode Sample.cosine Sample.fuzz_ratio Sample.analyzer).

(** X1 on the sample vocabulary, for the candidate "python". *)
Lemma matched_records_are_sound_witness :
  run_match Sample.analyzer ["python"] = Ok [Sample.python_match] ∧
  map original_skill [Sample.python_match] `sublist_of` ["python"] ∧
  ∀ m, m ∈ [Sample.python_match] →
       matched_skill m ∈ skill_list Sample.analyzer ∧
       (similarity_threshold Sample.analyzer <= confidence m)%Q.
Proof.
  assert (run_match Sample.analyzer ["python"] = Ok [Sample.python_match]) as Hrun
    by (vm_compute; reflexivity).
  split; [exact Hrun|].
  destruct (matched_records_are_sound _ _ _ _ _ _ Hrun) as (Hsub & _ & Hall).
  split; [exact Hsub | exact Hall].
Defined.

(** X2 on a vocabulary with one name and two embeddings: the candidate
    "SQL" is nearest to the second embedding, which has no name. *)
Lemma match_step_failures_witness :
  run_match wide_analyzer ["SQL"] = Raise IndexError ∧
  (length (skill_list wide_analyzer) < length (skill_embeddings wide_analyzer))%nat.
Proof.
  assert (run_match wide_analyzer ["SQL"] = Raise IndexError) as Hrun
    by (vm_compute; reflexivity).
  split; [exact Hrun|].
  destruct (proj1 (match_step_failures Sample.encode Sample.cosine Sample.fuzz_ratio
                     wide_analyzer ["SQL"]) IndexError Hrun)
    as (_ & [[Hvalue _] | [_ Hlen]]); [discriminate Hvalue | exact Hlen].
Defined.

(** X3 for the thresholds 0.7 and 0.9 over the sample vocabulary. *)
Lemma higher_threshold_filters_witness :
  same_data Sample.analyzer strict_analyzer ∧
  (similarity_threshold Sample.analyzer <= similarity_threshold strict_analyzer)%Q ∧
  vocabulary_ok Sample.analyzer ∧
  ∃ out,
    run_match Sample.analyzer ["python"; "pyhton"; "SQL"] = Ok out ∧
    run_match strict_analyzer ["python"; "pyhton"; "SQL"]
    = Ok (filter (λ m, Qle_bool (similarity_threshold strict_analyzer) (confidence m) = true)
            out).
Proof.
  assert (same_data Sample.analyzer strict_analyzer) as Hsame
    by (split_and!; vm_compute; reflexivity).
  assert (similarity_threshold Sample.analyzer <= similarity_threshold strict_analyzer)%Q
    as Hle by (unfold Qle; simpl; lia).
  assert (vocabulary_ok Sample.analyzer) as Hok by (split; [discriminate | reflexivity]).
  split_and!; [exact Hsame | exact Hle | exact Hok |].
  exact (higher_threshold_filters Sample.encode Sample.cosine Sample.fuzz_ratio
           Sample.analyzer strict_analyzer ["python"; "pyhton"; "SQL"] Hsame Hle Hok).
Defined.

(** X4 for two candidate lists over the sample vocabulary. *)
Lemma match_step_concat_witness :
  vocabulary_ok Sample.analyzer ∧
  ∃ out1 out2,
    run_match Sample.analyzer ["python"] = Ok out1 ∧
    run_match Sample.analyzer ["C#"; "SQL"] = Ok out2 ∧
    run_match Sample.analyzer (["python"] ++ ["C#"; "SQL"]) = Ok (out1 ++ out2).
Proof.
  assert (vocabulary_ok Sample.analyzer) as Hok by (split; [discriminate | reflexivity]).
  split; [exact Hok|].
  exact (match_step_concat Sample.encode Sample.cosine Sample.fuzz_ratio
           Sample.analyzer ["python"] ["C#"; "SQL"] Hok).
Defined.

(** X5 on the sample analysis. *)
Lemma analysis_counts_add_up_witness :
  run_analysis ["python"] "Data Analyst" = Ok Sample.analysis ∧
  (skills_present Sample.analysis + length (missing_skills Sample.analysis)
   = total_required_skills Sample.analysis)%nat ∧
  (length (critical_missing Sample.analysis) + length (important_missing Sample.analysis)
   + length (nice_to_have_missing Sample.analysis)
   = length (missing_skills Sample.analysis))%nat.
Proof.
  assert (run_analysis ["python"] "Data Analyst" = Ok Sample.analysis) as Hrun
    by (vm_compute; reflexivity).
  split; [exact Hrun|].
  exact (analysis_counts_add_up _ _ _ _ _ _ _ Hrun).
Defined.

(** X6 on the sample analysis. *)
Lemma score_extremes_witness :
  run_analysis ["python"] "Data Analyst" = Ok Sample.analysis ∧
  ((proficiency_score Sample.analysis == 0)%Q ↔ present_skills Sample.analysis = []).
Proof.
  assert (run_analysis ["python"] "Data Analyst" = Ok Sample.analysis) as Hrun
    by (vm_compute; reflexivity).
  split; [exact Hrun|].
  exact (proj2 (score_extremes _ _ _ _ _ _ _ Hrun)).
Defined.

(** X7 on the sample analysis, for "Docker": a hot technology that is not
    in demand. *)
Lemma missing_flag_lists_decide_tier_witness :
  run_analysis ["python"] "Data Analyst" = Ok Sample.analysis ∧
  ("Docker" ∈ important_missing Sample.analysis ↔
   "Docker" ∈ missing_skills Sample.analysis ∧
   ¬ ("Docker" ∈ missing_hot_technologies Sample.analysis
      ↔ "Docker" ∈ missing_in_demand Sample.analysis)).
Proof.
  assert (run_analysis ["python"] "Data Analyst" = Ok Sample.analysis) as Hrun
    by (vm_compute; reflexivity).
  split; [exact Hrun|].
  destruct (missing_flag_lists_decide_tier _ _ _ _ _ _ _ Hrun "Docker")
    as (_ & _ & _ & _ & Himportant).
  exact Himportant.
Defined.

(** X9 on the sample analysis, for the present skill "Python". *)
Lemma present_skills_are_vocabulary_names_witness :
  run_analysis ["python"] "Data Analyst" = Ok Sample.analysis ∧
  "Python" ∈ present_skills Sample.analysis ∧
  "Python" ∈ required_skills Sample.analyzer "Data Analyst" ∧
  "Python" ∈ skill_list Sample.analyzer.
Proof.
  assert (run_analysis ["python"] "Data Analyst" = Ok Sample.analysis) as Hrun
    by (vm_compute; reflexivity).
  assert ("Python" ∈ present_skills Sample.analysis) as Hin
    by (apply (bool_decide_unpack _); vm_compute; reflexivity).
  split_and!; [exact Hrun | exact Hin | |].
  - exact (proj1 (present_skills_are_vocabulary_names _ _ _ _ _ _ _ Hrun "Python" Hin)).
  - exact (proj1 (proj2 (present_skills_are_vocabulary_names _ _ _ _ _ _ _ Hrun
                           "Python" Hin))).
Defined.

(** X17 for "Docker", which the tables list under cloud and tools. *)
Lemma letter_r_means_programming_witness :
  PyStr.contains "r" (PyStr.lower "Docker") = true ∧
  LearningPath.category_of "Docker" = "programming" ∧
  Buckets.bucket_of "Docker" = "Programming Languages".
Proof.
  assert (PyStr.contains "r" (PyStr.lower "Docker") = true) as Hr by reflexivity.
  split; [exact Hr|].
  destruct (letter_r_means_programming "Docker" Hr) as (Hcategory & Hbucket & _).
  split; [exact Hcategory | exact Hbucket].
Defined.

(** X20 for a table with a blank task cell and a repeated task. *)
Lemma job_tasks_are_distinct_witness :
  Preprocessor.create_job_skill_mapping blank_task_rows !! "Clerk"
  = Some (default Preprocessor.fresh_entry
            (Preprocessor.create_job_skill_mapping blank_task_rows !! "Clerk")) ∧
  tasks (default Preprocessor.fresh_entry
           (Preprocessor.create_job_skill_mapping blank_task_rows !! "Clerk"))
  = Some [NaN 0; Text "query"] ∧
  ∃ ts, tasks (default Preprocessor.fresh_entry
                 (Preprocessor.create_job_skill_mapping blank_task_rows !! "Clerk"))
        = Some ts ∧
        NoDup ts ∧ NaN 0 ∈ ts.
Proof.
  assert (Preprocessor.create_job_skill_mapping blank_task_rows !! "Clerk"
          = Some (default Preprocessor.fresh_entry
                    (Preprocessor.create_job_skill_mapping blank_task_rows !! "Clerk")))
    as Hjob by (vm_compute; reflexivity).
  split_and!; [exact Hjob | vm_compute; reflexivity |].
  destruct (job_tasks_are_distinct blank_task_rows "Clerk" _ Hjob)
    as (ts & Htasks & Hdistinct & _ & _ & Hnan).
  exists ts. split_and!; [exact Htasks | exact Hdistinct |].
  apply Hnan. vm_compute. apply list_elem_of_here.
Defined.

(** X21 on the sample analysis, whose table the builder made. *)
Lemma analysis_counts_table_rows_witness :
  job_skill_mapping Sample.analyzer = Preprocessor.create_job_skill_mapping Sample.rows ∧
  run_analysis ["python"] "Data Analyst" = Ok Sample.analysis ∧
  total_required_skills Sample.analysis = length (job_rows Sample.rows "Data Analyst").
Proof.
  assert (job_skill_mapping Sample.analyzer
          = Preprocessor.create_job_skill_mapping Sample.rows) as Htable
    by (vm_compute; reflexivity).
  assert (run_analysis ["python"] "Data Analyst" = Ok Sample.analysis) as Hrun
    by (vm_compute; reflexivity).
  split_and!; [exact Htable | exact Hrun |].
  exact (proj1 (proj2 (analysis_counts_table_rows
                         Sample.encode Sample.cosine Sample.fuzz_ratio
                         Sample.analyzer Sample.rows ["python"] "Data Analyst"
                         Sample.analysis Htable Hrun))).
Defined.

End FurtherWitnesses.
